(** * wgu-d309: the Sparkify ETL pipeline and the image-predictions downloader

    A shallow embedding of

    - [data-modeling-with-postgres/etl.py]: [process_song_file],
      [process_log_file] and [process_data];
    - [WeRateDogs/get-image-predictions-file.py]: the module's top level.

    The database driver (psycopg2), pandas, the file system and the HTTP
    client are collaborators of the two scripts.  They are modelled by the
    interface the scripts use: a cursor and a connection over an arbitrary
    database state, data frames as lists of rows, a directory tree, and a
    table of HTTP responses.  Every call the scripts issue is recorded in a
    trace of events, and the statements below are statements about that
    trace. *)

From Stdlib Require Import ZArith List String Ascii Bool Lia DecimalString.
Import ListNotations.

Local Open Scope string_scope.
Local Open Scope list_scope.
Local Open Scope Z_scope.

(* ===================================================================== *)
(** ** Python values *)
(* ===================================================================== *)

(** The cells of a data frame and the parameters of a SQL statement.
    A float is kept as its dyadic value [m * 2^e] in canonical form; a
    pandas [Timestamp] built from an epoch in milliseconds is kept as that
    number of milliseconds. *)
Inductive pyval : Type :=
| PyNone
| PyInt (z : Z)
| PyFloat (m e : Z)
| PyStr (s : string)
| PyTimestamp (ms : Z).

Definition pyval_eq_dec (a b : pyval) : {a = b} + {a <> b}.
Proof.
  decide equality; try apply Z.eq_dec; apply string_dec.
Defined.

Definition pyval_eqb (a b : pyval) : bool :=
  if pyval_eq_dec a b then true else false.

(** [Series.isin(values)]: element-wise membership. *)
Definition isin (v : pyval) (values : list pyval) : bool :=
  existsb (pyval_eqb v) values.

(* ===================================================================== *)
(** ** The calendar behind the [.dt] accessors *)
(* ===================================================================== *)

Module Calendar.

(** The proleptic Gregorian calendar, as a specification: the number of
    days from 1970-01-01 to a given civil date. *)
Definition is_leap (y : Z) : bool :=
  (y mod 4 =? 0) && (negb (y mod 100 =? 0) || (y mod 400 =? 0)).

Definition days_in_month (y m : Z) : Z :=
  if m =? 2 then (if is_leap y then 29 else 28)
  else if (m =? 4) || (m =? 6) || (m =? 9) || (m =? 11) then 30
  else 31.

(** Leap years in [1 .. y]. *)
Definition leaps_through (y : Z) : Z := y / 4 - y / 100 + y / 400.

Definition days_before_year (y : Z) : Z :=
  365 * (y - 1970) + (leaps_through (y - 1) - leaps_through 1969).

Fixpoint days_before_month_aux (y : Z) (k : nat) : Z :=
  match k with
  | O => 0
  | S k' => days_before_month_aux y k' + days_in_month y (Z.of_nat k)
  end.

(** Days of year [y] that precede the first of month [m]. *)
Definition days_before_month (y m : Z) : Z :=
  days_before_month_aux y (Z.to_nat (m - 1)).

Definition days_from_civil (y m d : Z) : Z :=
  days_before_year y + days_before_month y m + (d - 1).


(** The decomposition of a day number into (year, month, day), by
    400-year eras with the year starting on 1 March. *)
Definition civil_from_days (z : Z) : Z * Z * Z :=
  let z := z + 719468 in
  let era := z / 146097 in
  let doe := z mod 146097 in
  let yoe := (doe - doe / 1460 + doe / 36524 - doe / 146096) / 365 in
  let doy := doe - (365 * yoe + yoe / 4 - yoe / 100) in
  let mp := (5 * doy + 2) / 153 in
  let d := doy - (153 * mp + 2) / 5 + 1 in
  let m := if mp <? 10 then mp + 3 else mp - 9 in
  let y := yoe + era * 400 in
  (if m <=? 2 then y + 1 else y, m, d).

Definition ms_per_day : Z := 86400000.
Definition ms_per_hour : Z := 3600000.

(** A [Timestamp] is a number of milliseconds since the epoch, UTC. *)
Definition days_of (ms : Z) : Z := ms / ms_per_day.

Definition year (ms : Z) : Z := fst (fst (civil_from_days (days_of ms))).
Definition month (ms : Z) : Z := snd (fst (civil_from_days (days_of ms))).
Definition day (ms : Z) : Z := snd (civil_from_days (days_of ms)).
Definition hour (ms : Z) : Z := (ms mod ms_per_day) / ms_per_hour.

(** Monday is 0 and Sunday is 6; 1970-01-01 was a Thursday. *)
Definition dayofweek (ms : Z) : Z := (days_of ms + 3) mod 7.

(** [weekday] is pandas' second name for [dayofweek]. *)
Definition weekday (ms : Z) : Z := dayofweek ms.

End Calendar.

(* ===================================================================== *)
(** ** Rows of the two kinds of input file *)
(* ===================================================================== *)

(** [pd.read_json(filepath, lines=True)] builds one row per line.  A file is
    modelled by the frame pandas builds from it: the columns the scripts
    read, one row per line, in line order. *)

Module Song.

Record row : Type := mk {
  song_id : pyval;
  title : pyval;
  artist_id : pyval;
  year : pyval;
  duration : pyval;
  artist_name : pyval;
  artist_location : pyval;
  artist_latitude : pyval;
  artist_longitude : pyval
}.

End Song.

Module Log.

(** The column [ts] holds integers (epoch milliseconds) when the file has
    been read and timestamps after [pd.to_datetime]; the record is
    parameterised by what the column holds. *)
Record row (TS : Type) : Type := mk {
  ts : TS;
  userId : pyval;
  firstName : pyval;
  lastName : pyval;
  gender : pyval;
  level : pyval;
  page : pyval;
  song : pyval;
  artist : pyval;
  length : pyval;
  sessionId : pyval;
  location : pyval;
  userAgent : pyval
}.
Arguments mk {TS}.
Arguments ts {TS}.
Arguments userId {TS}.
Arguments firstName {TS}.
Arguments lastName {TS}.
Arguments gender {TS}.
Arguments level {TS}.
Arguments page {TS}.
Arguments song {TS}.
Arguments artist {TS}.
Arguments length {TS}.
Arguments sessionId {TS}.
Arguments location {TS}.
Arguments userAgent {TS}.

(** [df['ts'] = f(df['ts'])] on one row. *)
Definition set_ts {A B : Type} (f : A -> B) (r : row A) : row B :=
  mk (f (ts r)) (userId r) (firstName r) (lastName r) (gender r) (level r)
     (page r) (song r) (artist r) (length r) (sessionId r) (location r)
     (userAgent r).

End Log.

(** A pandas [Timestamp], in milliseconds since the epoch.  The range of
    [Timestamp] (years 1677 to 2262) is not modelled: the timestamps of a
    log are taken to lie in it. *)
Definition Timestamp : Type := Z.

(** [pd.to_datetime(column, unit='ms')] on one cell. *)
Definition to_datetime_ms (ms : Z) : Timestamp := ms.

Inductive DataFrame : Type :=
| SongFrame (rows : list Song.row)
| LogFrame (rows : list (Log.row Z)).

(** [DataFrame.iterrows] of a frame held column by column: the first [n]
    rows, each one the list of its cells in column order. *)
Fixpoint iterrows (columns : list (list pyval)) (n : nat) : list (list pyval) :=
  match n with
  | O => []
  | S n' => map (hd PyNone) columns :: iterrows (map (@tl pyval) columns) n'
  end.

(** The column of a frame with a given label. *)
Fixpoint column (label : string) (df : list (string * list pyval)) : option (list pyval) :=
  match df with
  | [] => None
  | (l, c) :: rest => if String.eqb l label then Some c else column label rest
  end.

(* ===================================================================== *)
(** ** The file system *)
(* ===================================================================== *)

Inductive file_content : Type :=
| Lines (df : DataFrame)
| Malformed.

#[local] Set Warnings "-register-all".

(** A directory tree of regular files and directories; symbolic links are
    not modelled. *)
Inductive node : Type :=
| File (content : file_content)
| Dir (entries : list (string * node)).

(** A path is a list of names, relative to the working directory or to the
    root.  Names are taken literally: [.], [..] and the metacharacters of
    [glob] do not occur in directory names. *)
Record path : Type := mkpath { is_abs : bool; parts : list string }.

Definition relpath (names : list string) : path := mkpath false names.

Fixpoint join_names (names : list string) : string :=
  match names with
  | [] => ""
  | n :: rest =>
      match rest with
      | [] => n
      | _ :: _ => n ++ "/" ++ join_names rest
      end
  end.

Definition path_str (p : path) : string :=
  if is_abs p then "/" ++ join_names (parts p) else join_names (parts p).

(** [os.path.join(root, name)]. *)
Definition os_path_join (root : path) (name : string) : path :=
  mkpath (is_abs root) (parts root ++ [name]).

Fixpoint lookup_entry (name : string) (entries : list (string * node)) : option node :=
  match entries with
  | [] => None
  | (n, child) :: rest => if String.eqb n name then Some child else lookup_entry name rest
  end.

Fixpoint lookup_node (n : node) (names : list string) : option node :=
  match names with
  | [] => Some n
  | name :: rest =>
      match n with
      | File _ => None
      | Dir entries =>
          match lookup_entry name entries with
          | Some child => lookup_node child rest
          | None => None
          end
      end
  end.

(** [fnmatch.fnmatchcase] for patterns made of literal characters, [*] and
    [?]. *)
Fixpoint fnmatch (name pat : string) {struct pat} : bool :=
  match pat with
  | EmptyString => match name with EmptyString => true | String _ _ => false end
  | String c pat' =>
      if Ascii.eqb c "*" then
        (fix star (n : string) : bool :=
           fnmatch n pat' ||
           match n with
           | EmptyString => false
           | String _ n' => star n'
           end) name
      else
        match name with
        | EmptyString => false
        | String c' n' => (Ascii.eqb c "?" || Ascii.eqb c c') && fnmatch n' pat'
        end
  end.

Definition is_hidden (name : string) : bool :=
  match name with
  | String c _ => Ascii.eqb c "."
  | EmptyString => false
  end.

(** What [glob] lets a pattern match in a directory: a name that starts with
    a dot only when the pattern does. *)
Definition glob_match (pat name : string) : bool :=
  (is_hidden pat || negb (is_hidden name)) && fnmatch name pat.

(** The directories [os.walk] visits in a tree, top down, each with the
    entries [os.scandir] lists for it.  A path that is not a directory is
    not visited: [os.walk] ignores the error of listing it. *)
Fixpoint walk_node (root : path) (n : node) {struct n} : list (path * list (string * node)) :=
  match n with
  | File _ => []
  | Dir entries =>
      (root, entries) ::
      (fix walk_children (es : list (string * node)) : list (path * list (string * node)) :=
         match es with
         | [] => []
         | (name, child) :: es' =>
             walk_node (os_path_join root name) child ++ walk_children es'
         end) entries
  end.

(** No entry of the tree, at any depth, has a name that [glob] matches
    against [pat]. *)
Fixpoint no_match (pat : string) (n : node) {struct n} : bool :=
  match n with
  | File _ => true
  | Dir entries =>
      (fix no_match_entries (es : list (string * node)) : bool :=
         match es with
         | [] => true
         | (name, child) :: es' =>
             negb (glob_match pat name) && no_match pat child && no_match_entries es'
         end) entries
  end.

(* ===================================================================== *)
(** ** The database driver *)
(* ===================================================================== *)

(** The statements of [sql_queries.py] that [etl.py] names.  The module is
    not part of the sources read here: a statement is an opaque name, and
    what it does to the database is decided by the cursor that executes
    it. *)
Inductive query : Type :=
| song_table_insert
| artist_table_insert
| time_table_insert
| user_table_insert
| songplay_table_insert
| song_select.

Definition query_eq_dec (a b : query) : {a = b} + {a <> b}.
Proof. decide equality. Defined.

Definition query_eqb (a b : query) : bool :=
  if query_eq_dec a b then true else false.

(** The exceptions of the model.  [psycopg2.Error] is the only class the
    scripts catch; every other exception is a [PyException] with the name
    of its class. *)
Inductive exn : Type :=
| Psycopg2Error (msg : string)
| PyException (name : string).

(** A [psycopg2] cursor over a database state [DB]: [execute] either
    succeeds or raises a [psycopg2.Error]; [fetchone] returns the next row
    of the last result (the two columns [song_select] selects), [None] when
    there is none, or raises. *)
Record cursor (DB : Type) : Type := mkcursor {
  execute : query -> list pyval -> DB -> DB * option string;
  fetchone : DB -> DB * (string + option (pyval * pyval))
}.
Arguments mkcursor {DB}.
Arguments execute {DB}.
Arguments fetchone {DB}.

(** A [psycopg2] connection: the two calls that end a transaction. *)
Record connection (DB : Type) : Type := mkconnection {
  commit : DB -> DB * option string;
  rollback : DB -> DB * option string
}.
Arguments mkconnection {DB}.
Arguments commit {DB}.
Arguments rollback {DB}.

(** What a run does, in order: the calls it issues, with their outcome, and
    the lines it prints. *)
Inductive event : Type :=
| Execute (q : query) (params : list pyval) (raised : option string)
| Fetchone (res : string + option (pyval * pyval))
| Commit (raised : option string)
| Rollback (raised : option string)
| Print (line : string).

Inductive result (A : Type) : Type :=
| Ok (a : A)
| Raise (e : exn).
Arguments Ok {A}.
Arguments Raise {A}.

(** *** A monad for the scripts: database state, trace, exceptions *)

Section Effects.
Context {DB : Type}.

Definition M (A : Type) : Type := DB -> DB * list event * result A.

Definition ret {A : Type} (a : A) : M A := fun db => (db, [], Ok a).

Definition bind {A B : Type} (m : M A) (k : A -> M B) : M B :=
  fun db =>
    match m db with
    | (db1, t1, Ok a) =>
        match k a db1 with
        | (db2, t2, r) => (db2, t1 ++ t2, r)
        end
    | (db1, t1, Raise e) => (db1, t1, Raise e)
    end.

Definition raise {A : Type} (e : exn) : M A := fun db => (db, [], Raise e).

(** [try: body except psycopg2.Error as e: handler(e)]. *)
Definition try_except {A : Type} (body : M A) (handler : string -> M A) : M A :=
  fun db =>
    match body db with
    | (db1, t1, Raise (Psycopg2Error msg)) =>
        match handler msg db1 with
        | (db2, t2, r) => (db2, t1 ++ t2, r)
        end
    | other => other
    end.

Definition print (line : string) : M unit := fun db => (db, [Print line], Ok tt).

Definition cur_execute (cur : cursor DB) (q : query) (params : list pyval) : M unit :=
  fun db =>
    match execute cur q params db with
    | (db1, None) => (db1, [Execute q params None], Ok tt)
    | (db1, Some msg) => (db1, [Execute q params (Some msg)], Raise (Psycopg2Error msg))
    end.

Definition cur_fetchone (cur : cursor DB) : M (option (pyval * pyval)) :=
  fun db =>
    match fetchone cur db with
    | (db1, inr row) => (db1, [Fetchone (inr row)], Ok row)
    | (db1, inl msg) => (db1, [Fetchone (inl msg)], Raise (Psycopg2Error msg))
    end.

Definition conn_commit (conn : connection DB) : M unit :=
  fun db =>
    match commit conn db with
    | (db1, None) => (db1, [Commit None], Ok tt)
    | (db1, Some msg) => (db1, [Commit (Some msg)], Raise (Psycopg2Error msg))
    end.

Definition conn_rollback (conn : connection DB) : M unit :=
  fun db =>
    match rollback conn db with
    | (db1, None) => (db1, [Rollback None], Ok tt)
    | (db1, Some msg) => (db1, [Rollback (Some msg)], Raise (Psycopg2Error msg))
    end.

(** [for x in xs: body(x)]. *)
Fixpoint for_each {A : Type} (xs : list A) (body : A -> M unit) : M unit :=
  match xs with
  | [] => ret tt
  | x :: xs' => bind (body x) (fun _ => for_each xs' body)
  end.

End Effects.

Declare Scope py_scope.
Delimit Scope py_scope with py.
Notation "x <- m ;; k" := (bind m (fun x => k))
  (at level 61, m at next level, right associativity) : py_scope.
Notation "m ;; k" := (bind m (fun _ => k))
  (at level 61, right associativity) : py_scope.
Notation "'try' body 'except' e => handler" := (try_except body (fun e => handler))
  (at level 60, body at level 59, e name, handler at level 59) : py_scope.

(** The parts of a run. *)
Definition final_db {DB A : Type} (r : DB * list event * result A) : DB := fst (fst r).
Definition trace {DB A : Type} (r : DB * list event * result A) : list event := snd (fst r).
Definition outcome {DB A : Type} (r : DB * list event * result A) : result A := snd r.

(* ===================================================================== *)
(** ** etl.py *)
(* ===================================================================== *)

Local Open Scope py_scope.

(** [str(n)] for a natural number. *)
Definition str_of_nat (n : nat) : string := NilZero.string_of_uint (Nat.to_uint n).

(** [enumerate(xs, start)]. *)
Fixpoint enumerate {A : Type} (start : nat) (xs : list A) : list (nat * A) :=
  match xs with
  | [] => []
  | x :: xs' => (start, x) :: enumerate (S start) xs'
  end.

Section ETL.
Context {DB : Type}.

(** The directory tree of the machine and the working directory of the
    process. *)
Variable fs : node.
Variable cwd : list string.

Definition resolve (p : path) : list string :=
  if is_abs p then parts p else cwd ++ parts p.

(** [os.path.abspath(p)]. *)
Definition os_path_abspath (p : path) : path := mkpath true (resolve p).

(** [os.walk(top)]: the directories below [top], top down. *)
Definition os_walk (top : path) : list (path * list (string * node)) :=
  match lookup_node fs (resolve top) with
  | Some n => walk_node top n
  | None => []
  end.

(** [glob.glob(os.path.join(root, pat))]: the entries of directory [root]
    whose name matches [pat], files and directories alike, in the order
    the directory lists them. *)
Definition glob_glob (root : path) (pat : string) : list path :=
  match lookup_node fs (resolve root) with
  | Some (Dir entries) =>
      map (fun e => os_path_join root (fst e))
          (filter (fun e => glob_match pat (fst e)) entries)
  | _ => []
  end.

(** [pd.read_json(filepath, lines=True)]. *)
Definition pd_read_json (filepath : path) : M (DB := DB) DataFrame :=
  match lookup_node fs (resolve filepath) with
  | Some (File (Lines df)) => ret df
  | Some (File Malformed) => raise (PyException "ValueError")
  | Some (Dir _) => raise (PyException "IsADirectoryError")
  | None => raise (PyException "FileNotFoundError")
  end.

Definition song_data (row : Song.row) : list pyval :=
  [Song.song_id row; Song.title row; Song.artist_id row; Song.year row;
   Song.duration row].

Definition artist_data (row : Song.row) : list pyval :=
  [Song.artist_id row; Song.artist_name row; Song.artist_location row;
   Song.artist_latitude row; Song.artist_longitude row].

Definition process_song_file (cur : cursor DB) (filepath : path) : M unit :=
  df <- pd_read_json filepath ;;
  match df with
  | SongFrame df =>
      for_each df (fun row =>
        (try cur_execute cur song_table_insert (song_data row)
         except e =>
           (print "ERROR: Unable to insert record into 'songs' table." ;;
            print e)) ;;
        (try cur_execute cur artist_table_insert (artist_data row)
         except e =>
           (print "ERROR: Unable to insert record into 'artists' table." ;;
            print e)))
  | LogFrame df =>
      (* a frame without the column: [row.song_id] *)
      for_each df (fun _ => raise (PyException "AttributeError"))
  end.

Definition column_labels : list string :=
  ["start_time"; "hour"; "day"; "week"; "month"; "year"; "weekday"].

Definition time_data (t : list (Log.row Timestamp)) : list (list pyval) :=
  [map (fun r => PyTimestamp (Log.ts r)) t;
   map (fun r => PyInt (Calendar.hour (Log.ts r))) t;
   map (fun r => PyInt (Calendar.day (Log.ts r))) t;
   map (fun r => PyInt (Calendar.dayofweek (Log.ts r))) t;
   map (fun r => PyInt (Calendar.month (Log.ts r))) t;
   map (fun r => PyInt (Calendar.year (Log.ts r))) t;
   map (fun r => PyInt (Calendar.weekday (Log.ts r))) t].

(** [time_df]: for each label, in order, the column of [time_data] at the
    label's index. *)
Definition time_df (t : list (Log.row Timestamp)) : list (string * list pyval) :=
  map (fun il => (snd il, nth (fst il) (time_data t) []))
      (enumerate 0%nat column_labels).

Definition user_row (r : Log.row Timestamp) : list pyval :=
  [Log.userId r; Log.firstName r; Log.lastName r; Log.gender r; Log.level r].

Definition songplay_data (row : Log.row Timestamp) (songid artistid : pyval) : list pyval :=
  [PyTimestamp (Log.ts row); Log.userId row; Log.level row; songid; artistid;
   Log.sessionId row; Log.location row; Log.userAgent row].

(** The rows of a log that [process_log_file] keeps: the two filters and
    the conversion of [ts], as the function applies them. *)
Definition filtered (df : list (Log.row Z)) : list (Log.row Timestamp) :=
  let df := filter (fun r => isin (Log.userId r) [PyStr ""]) df in
  let df := filter (fun r => pyval_eqb (Log.page r) (PyStr "NextSong")) df in
  map (Log.set_ts to_datetime_ms) df.

Definition process_log_file (cur : cursor DB) (filepath : path) : M unit :=
  df <- pd_read_json filepath ;;
  match df with
  | SongFrame _ =>
      (* a frame without the column: [df['userId']] *)
      raise (PyException "KeyError")
  | LogFrame df =>
      let df := filtered df in
      let t := df in
      let time_df := time_df t in
      for_each (iterrows (map snd time_df) (List.length t)) (fun row =>
        try cur_execute cur time_table_insert row
        except e =>
          (print "ERROR: Unable to insert record into 'time' table." ;;
           print e)) ;;
      let user_df := map user_row df in
      for_each user_df (fun row =>
        try cur_execute cur user_table_insert row
        except e =>
          (print "ERROR: Unable to insert record into 'users' table." ;;
           print e)) ;;
      for_each df (fun row =>
        try
          (cur_execute cur song_select [Log.song row; Log.artist row; Log.length row] ;;
           results <- cur_fetchone cur ;;
           let ids := match results with
                      | Some (songid, artistid) => (songid, artistid)
                      | None => (PyNone, PyNone)
                      end in
           try cur_execute cur songplay_table_insert
                 (songplay_data row (fst ids) (snd ids))
           except e =>
             (print "ERROR: Unable to insert record into 'songplays' table." ;;
              print e))
        except e =>
          (print "ERROR: Unable to query for song ID and artist ID." ;;
           print e))
  end.

(** The files [process_data] finds under [filepath]. *)
Definition all_files (filepath : path) : list path :=
  flat_map (fun walked => map os_path_abspath (glob_glob (fst walked) "*.json"))
           (os_walk filepath).

Definition process_data (cur : cursor DB) (conn : connection DB) (filepath : path)
    (func : cursor DB -> path -> M unit) : M unit :=
  let all_files := all_files filepath in
  let num_files := List.length all_files in
  print (str_of_nat num_files ++ " files found in " ++ path_str filepath) ;;
  for_each (enumerate 1%nat all_files) (fun i_datafile =>
    func cur (snd i_datafile) ;;
    conn_commit conn ;;
    print (str_of_nat (fst i_datafile) ++ "/" ++ str_of_nat num_files ++ " files processed.")).

(** The body of the third loop of [process_log_file], on its own. *)
Definition songplay_body (cur : cursor DB) (row : Log.row Timestamp) : M unit :=
  try
    (cur_execute cur song_select [Log.song row; Log.artist row; Log.length row] ;;
     results <- cur_fetchone cur ;;
     let ids := match results with
                | Some (songid, artistid) => (songid, artistid)
                | None => (PyNone, PyNone)
                end in
     try cur_execute cur songplay_table_insert
           (songplay_data row (fst ids) (snd ids))
     except e =>
       (print "ERROR: Unable to insert record into 'songplays' table." ;;
        print e))
  except e =>
    (print "ERROR: Unable to query for song ID and artist ID." ;;
     print e).

(** The rows of the file at [filepath] when it is a log, and no row
    otherwise. *)
Definition log_rows (filepath : path) : list (Log.row Z) :=
  match lookup_node fs (resolve filepath) with
  | Some (File (Lines (LogFrame rows))) => rows
  | _ => []
  end.

Definition is_log_file (filepath : path) : Prop :=
  exists rows, lookup_node fs (resolve filepath) = Some (File (Lines (LogFrame rows))).

Definition is_song_file (filepath : path) : Prop :=
  exists rows, lookup_node fs (resolve filepath) = Some (File (Lines (SongFrame rows))).

End ETL.

(* ===================================================================== *)
(** ** Reading a trace *)
(* ===================================================================== *)

(** The statements a run handed to [cur.execute], whatever their outcome. *)
Definition executed (t : list event) : list (query * list pyval) :=
  flat_map (fun ev => match ev with
                      | Execute q params _ => [(q, params)]
                      | _ => []
                      end) t.

(** The parameter lists of the executions of one statement. *)
Definition writes_to (q : query) (t : list event) : list (list pyval) :=
  map snd (filter (fun qp => query_eqb (fst qp) q) (executed t)).

Definition is_commit (ev : event) : bool :=
  match ev with Commit _ => true | _ => false end.

Definition is_rollback (ev : event) : bool :=
  match ev with Rollback _ => true | _ => false end.

(** An event that neither ends nor undoes a transaction. *)
Definition keeps_transaction (ev : event) : bool :=
  negb (is_commit ev) && negb (is_rollback ev).

(** The lines printed when a statement raised. *)
Definition report (line : string) (raised : option string) : list event :=
  match raised with
  | None => []
  | Some msg => [Print line; Print msg]
  end.

(** The row of [time_df] built from one row of the log. *)
Definition time_row (r : Log.row Timestamp) : list pyval :=
  [PyTimestamp (Log.ts r);
   PyInt (Calendar.hour (Log.ts r));
   PyInt (Calendar.day (Log.ts r));
   PyInt (Calendar.dayofweek (Log.ts r));
   PyInt (Calendar.month (Log.ts r));
   PyInt (Calendar.year (Log.ts r));
   PyInt (Calendar.weekday (Log.ts r))].

(** The parameters of the lookup for one row of the log. *)
Definition lookup_args (row : Log.row Timestamp) : list pyval :=
  [Log.song row; Log.artist row; Log.length row].

(** The ids the songplay insert gets from what [fetchone] returned. *)
Definition ids_of (results : option (pyval * pyval)) : pyval * pyval :=
  match results with
  | Some (songid, artistid) => (songid, artistid)
  | None => (PyNone, PyNone)
  end.

Definition query_failed : string := "ERROR: Unable to query for song ID and artist ID.".
Definition songplay_failed : string := "ERROR: Unable to insert record into 'songplays' table.".
Definition time_failed : string := "ERROR: Unable to insert record into 'time' table.".
Definition user_failed : string := "ERROR: Unable to insert record into 'users' table.".
Definition song_failed : string := "ERROR: Unable to insert record into 'songs' table.".
Definition artist_failed : string := "ERROR: Unable to insert record into 'artists' table.".

(** What the third loop of [process_log_file] does for one row: the lookup
    raises in [execute] or in [fetchone], and the row is reported and left;
    or the lookup returns, and the songplay insert is issued with the ids
    of the result. *)
Inductive songplay_step (row : Log.row Timestamp) : list event -> Prop :=
| step_select_raised (msg : string) :
    songplay_step row
      [Execute song_select (lookup_args row) (Some msg);
       Print query_failed; Print msg]
| step_fetch_raised (msg : string) :
    songplay_step row
      [Execute song_select (lookup_args row) None;
       Fetchone (inl msg);
       Print query_failed; Print msg]
| step_inserted (results : option (pyval * pyval)) (raised : option string) :
    songplay_step row
      (Execute song_select (lookup_args row) None
       :: Fetchone (inr results)
       :: Execute songplay_table_insert
            (songplay_data row (fst (ids_of results)) (snd (ids_of results))) raised
       :: report songplay_failed raised).

(** One guarded insert: the statement, then the report when it raised. *)
Definition insert_step (q : query) (line : string) (params : list pyval)
    (t : list event) : Prop :=
  exists raised, t = Execute q params raised :: report line raised.

Definition song_step (row : Song.row) (t : list event) : Prop :=
  exists t1 t2,
    t = t1 ++ t2 /\
    insert_step song_table_insert song_failed (song_data row) t1 /\
    insert_step artist_table_insert artist_failed (artist_data row) t2.

(** The lookup of a step raised. *)
Definition lookup_raised (t : list event) : bool :=
  existsb (fun ev => match ev with
                     | Execute song_select _ (Some _) => true
                     | Fetchone (inl _) => true
                     | _ => false
                     end) t.

(** The progress line [process_data] prints after file [i] of [n]. *)
Definition progress (i n : nat) : string :=
  str_of_nat i ++ "/" ++ str_of_nat n ++ " files processed.".

(** The line [process_data] prints when it has found [n] files. *)
Definition found (n : nat) (filepath : path) : string :=
  str_of_nat n ++ " files found in " ++ path_str filepath.

(** What [process_data] does for file [i] of [n]: the file's own events
    [t], of which [Q] holds, then the commit, and the progress line when
    the commit returned. *)
Definition file_chunk (Q : path -> list event -> Prop) (n : nat)
    (i_datafile : nat * path) (chunk : list event) : Prop :=
  exists t committed,
    chunk = t ++ Commit committed
              :: match committed with
                 | None => [Print (progress (fst i_datafile) n)]
                 | Some _ => []
                 end /\
    Q (snd i_datafile) t.

(** The events of a song file: one step per line, each the two guarded
    inserts with their reports, and nothing that ends or undoes the
    transaction. *)
Definition song_file_events (fs : node) (cwd : list string) (datafile : path)
    (t : list event) : Prop :=
  forallb keeps_transaction t = true /\
  exists rows,
    lookup_node fs (resolve cwd datafile) = Some (File (Lines (SongFrame rows))) /\
    (exists steps, t = List.concat steps /\ Forall2 song_step rows steps) /\
    executed t = flat_map (fun row => [(song_table_insert, song_data row);
                                       (artist_table_insert, artist_data row)]) rows.

(** The events of a log file: for every row that the filters keep, the
    guarded insert into the time table, then for every such row the guarded
    insert into the users table, then for every such row the lookup and
    its songplay step; each with its report when it raised, and nothing
    that ends or undoes the transaction. *)
Definition log_file_events (fs : node) (cwd : list string) (datafile : path)
    (t : list event) : Prop :=
  forallb keeps_transaction t = true /\
  exists rows,
    lookup_node fs (resolve cwd datafile) = Some (File (Lines (LogFrame rows))) /\
    (exists time_steps user_steps songplay_steps,
       t = List.concat time_steps ++ List.concat user_steps
             ++ List.concat songplay_steps /\
       Forall2 (fun r => insert_step time_table_insert time_failed (time_row r))
               (filtered rows) time_steps /\
       Forall2 (fun r => insert_step user_table_insert user_failed (user_row r))
               (filtered rows) user_steps /\
       Forall2 songplay_step (filtered rows) songplay_steps) /\
    writes_to time_table_insert t = map time_row (filtered rows) /\
    writes_to user_table_insert t = map user_row (filtered rows) /\
    writes_to song_select t = map lookup_args (filtered rows).

(* ===================================================================== *)
(** ** The database of the specification *)
(* ===================================================================== *)

Module Sparkify.

(** Modelled from the spec: [sql_queries.py], which holds the text of the
    six statements, is not among the sources.  The five tables hold the
    records of the specification's data model, each row the parameter list
    of the insert that wrote it, its key first. *)
Record db : Type := mkdb {
  songs : list (list pyval);
  artists : list (list pyval);
  time : list (list pyval);
  users : list (list pyval);
  songplays : list (list pyval);
  results : list (pyval * pyval)
}.

Definition col (i : nat) (row : list pyval) : pyval := nth i row PyNone.

Definition has_key (key : pyval) (table : list (list pyval)) : bool :=
  existsb (fun r => pyval_eqb (col 0 r) key) table.

(** Modelled from the spec: an insert that leaves the table alone when the
    key is already there ("insert-ignore-on-conflict"). *)
Definition insert_ignore (row : list pyval) (table : list (list pyval)) : list (list pyval) :=
  if has_key (col 0 row) table then table else table ++ [row].

(** Modelled from the spec: an upsert ("later event for same user_id
    overwrites earlier"). *)
Definition upsert (row : list pyval) (table : list (list pyval)) : list (list pyval) :=
  if has_key (col 0 row) table
  then map (fun r => if pyval_eqb (col 0 r) (col 0 row) then row else r) table
  else table ++ [row].

(** Modelled from the spec: a song record (song_id, title, artist_id, year,
    duration) and an artist record (artist_id, name, ...) are a pair for
    the lookup with parameters (song, artist, length) when the song is the
    artist's and "title, artist name, and duration all match ... exactly". *)
Definition pair_matches (args s a : list pyval) : bool :=
  pyval_eqb (col 2 s) (col 0 a) &&
  pyval_eqb (col 1 s) (col 0 args) &&
  pyval_eqb (col 1 a) (col 1 args) &&
  pyval_eqb (col 4 s) (col 2 args).

(** Modelled from the spec: the result of [song_select], the (song_id,
    artist_id) of every matching pair. *)
Definition select_song (d : db) (args : list pyval) : list (pyval * pyval) :=
  flat_map (fun s =>
    flat_map (fun a => if pair_matches args s a then [(col 0 s, col 0 a)] else [])
             (artists d))
    (songs d).

(** Modelled from the spec: what each statement of [sql_queries.py] does.
    Songs and artists are inserted unless their key is there, users are
    upserted, time and songplay rows are plain inserts, and [song_select]
    leaves its result for [fetchone]. *)
Definition run (q : query) (params : list pyval) (d : db) : db :=
  match q with
  | song_table_insert =>
      mkdb (insert_ignore params (songs d)) (artists d) (time d) (users d) (songplays d) []
  | artist_table_insert =>
      mkdb (songs d) (insert_ignore params (artists d)) (time d) (users d) (songplays d) []
  | time_table_insert =>
      mkdb (songs d) (artists d) (time d ++ [params]) (users d) (songplays d) []
  | user_table_insert =>
      mkdb (songs d) (artists d) (time d) (upsert params (users d)) (songplays d) []
  | songplay_table_insert =>
      mkdb (songs d) (artists d) (time d) (users d) (songplays d ++ [params]) []
  | song_select =>
      mkdb (songs d) (artists d) (time d) (users d) (songplays d) (select_song d params)
  end.

Definition next_result (d : db) : db * (string + option (pyval * pyval)) :=
  match results d with
  | [] => (d, inr None)
  | r :: rest =>
      (mkdb (songs d) (artists d) (time d) (users d) (songplays d) rest, inr (Some r))
  end.

(** Modelled from the spec: a cursor on this database.  No statement of
    the model raises. *)
Definition cur : cursor db :=
  mkcursor (fun q params d => (run q params d, None)) next_result.

(** The ids the lookup resolves for one row of the log. *)
Definition resolve_ids (d : db) (row : Log.row Timestamp) : pyval * pyval :=
  ids_of (hd_error (select_song d (lookup_args row))).

(** The song and artist tables are those of [d0]. *)
Definition same_catalogue (d0 d : db) : Prop :=
  songs d = songs d0 /\ artists d = artists d0.

End Sparkify.

(* ===================================================================== *)
(** ** get-image-predictions-file.py *)
(* ===================================================================== *)

Module Downloader.

Definition url : string :=
  "https://d17h27t6h515a5.cloudfront.net/topher/2017/August/599fd2ad_image-predictions/image-predictions.tsv".

Fixpoint after_first (c : ascii) (s : string) : option string :=
  match s with
  | EmptyString => None
  | String c' rest => if Ascii.eqb c c' then Some rest else after_first c rest
  end.

Fixpoint take_until (stop : ascii -> bool) (s : string) : string :=
  match s with
  | EmptyString => EmptyString
  | String c rest => if stop c then EmptyString else String c (take_until stop rest)
  end.

Fixpoint drop_until (stop : ascii -> bool) (s : string) : string :=
  match s with
  | EmptyString => EmptyString
  | String c rest => if stop c then s else drop_until stop rest
  end.

Definition is_one_of (cs : list ascii) (c : ascii) : bool :=
  existsb (Ascii.eqb c) cs.

(** [urlsplit(u).path] for a URL with a scheme: what follows the network
    location, up to the query or the fragment. *)
Definition urlsplit_path (u : string) : string :=
  let rest := match after_first ":" u with Some r => r | None => u end in
  let rest :=
    match rest with
    | String c1 (String c2 r) =>
        if Ascii.eqb c1 "/" && Ascii.eqb c2 "/"
        then drop_until (is_one_of ["/"; "?"; "#"]%char) r
        else rest
    | _ => rest
    end in
  take_until (is_one_of ["?"; "#"]%char) rest.

Definition hex_digit (c : ascii) : option nat :=
  let n := nat_of_ascii c in
  if (48 <=? n)%nat && (n <=? 57)%nat then Some (n - 48)%nat
  else if (65 <=? n)%nat && (n <=? 70)%nat then Some (n - 55)%nat
  else if (97 <=? n)%nat && (n <=? 102)%nat then Some (n - 87)%nat
  else None.

(** [unquote(s)] on ASCII: each [%XX] is the character with that code. *)
Fixpoint unquote (s : string) : string :=
  match s with
  | EmptyString => EmptyString
  | String c rest =>
      match rest with
      | String h1 (String h2 rest') =>
          match hex_digit h1, hex_digit h2 with
          | Some a, Some b =>
              if Ascii.eqb c "%"
              then String (ascii_of_nat (16 * a + b)) (unquote rest')
              else String c (unquote rest)
          | _, _ => String c (unquote rest)
          end
      | _ => String c (unquote rest)
      end
  end.

Fixpoint has_slash (s : string) : bool :=
  match s with
  | EmptyString => false
  | String c rest => Ascii.eqb c "/" || has_slash rest
  end.

(** [posixpath.basename(p)]: what follows the last slash. *)
Fixpoint basename (p : string) : string :=
  match p with
  | EmptyString => EmptyString
  | String c rest =>
      if has_slash rest then basename rest
      else if Ascii.eqb c "/" then rest else p
  end.

Definition path : string := urlsplit_path url.
Definition file_name : string := basename (unquote path).

(** The working directory: what each name is, when it is there. *)
Inductive entry : Type :=
| RegularFile (content : string)
| Directory.

Definition files : Type := string -> option entry.

(** [os.path.isfile(name)]. *)
Definition os_path_isfile (fs : files) (name : string) : bool :=
  match fs name with
  | Some (RegularFile _) => true
  | _ => false
  end.

(** The directory after [open(name, 'wb')] and a [write] of [content]. *)
Definition write_file (fs : files) (name content : string) : files :=
  fun n => if String.eqb n name then Some (RegularFile content) else fs n.

(** What the script does, in order. *)
Inductive effect : Type :=
| HttpGet (u : string)
| WriteFile (name content : string)
| Stdout (line : string).

(** The module's top level.  [requests_get u] is the body of the response
    to a GET of [u], or the name of the exception the request raises. *)
Definition script (requests_get : string -> string + string) (fs : files)
    : files * list effect * result unit :=
  match requests_get url with
  | inl err => (fs, [HttpGet url], Raise (PyException err))
  | inr content =>
      if negb (os_path_isfile fs file_name) then
        match fs file_name with
        | Some Directory =>
            (fs, [HttpGet url], Raise (PyException "IsADirectoryError"))
        | _ =>
            (write_file fs file_name content,
             [HttpGet url; WriteFile file_name content;
              Stdout (file_name ++ " file downloaded.")],
             Ok tt)
        end
      else
        (fs, [HttpGet url; Stdout (file_name ++ " file exists.")], Ok tt)
  end.

Definition fetches (t : list effect) : list string :=
  flat_map (fun ef => match ef with HttpGet u => [u] | _ => [] end) t.

Definition file_writes (t : list effect) : list (string * string) :=
  flat_map (fun ef => match ef with WriteFile n c => [(n, c)] | _ => [] end) t.

(** The parts of a run of the script. *)
Definition files_after (r : files * list effect * result unit) : files := fst (fst r).
Definition effects (r : files * list effect * result unit) : list effect := snd (fst r).

End Downloader.

(* ===================================================================== *)
(** ** Sample inputs *)
(* ===================================================================== *)

Module Sample.

(** A cursor without state: [raises] decides which statements raise, and
    every lookup that returns finds [found]. *)
Definition flaky_cursor (raises : query -> list pyval -> option string)
    (found : option (pyval * pyval)) : cursor unit :=
  mkcursor (fun q params db => (db, raises q params)) (fun db => (db, inr found)).

Definition steady_cursor : cursor unit := flaky_cursor (fun _ _ => None) None.

Definition steady_connection : connection unit :=
  mkconnection (fun db => (db, None)) (fun db => (db, None)).

(** A cursor whose lookups raise. *)
Definition lookup_fails (q : query) (params : list pyval) : option string :=
  match q with
  | song_select => Some "connection lost"
  | _ => None
  end.

(** A cursor whose inserts into the users table raise. *)
Definition users_fail (q : query) (params : list pyval) : option string :=
  match q with
  | user_table_insert => Some "invalid input syntax for integer"
  | _ => None
  end.

Definition log_event (user_id page : string) (ts : Z) : Log.row Z :=
  Log.mk ts (PyStr user_id) (PyStr "Ryan") (PyStr "Smith") (PyStr "M") (PyStr "free")
    (PyStr page) (PyStr "Sehr kosmisch") (PyStr "Harmonia") (PyFloat 3671684301 (-24))
    (PyInt 583) (PyStr "San Jose-Sunnyvale-Santa Clara, CA") (PyStr "Mozilla/5.0").

(** A log event of a visitor who is not logged in: the user id is the empty
    string. *)
Definition anonymous_play : Log.row Z := log_event "" "NextSong" 1541207073796.

Definition user_play : Log.row Z := log_event "26" "NextSong" 1541207073796.

(** The ten events of the specification's example: three that are not
    plays, one play without a user id, six plays of known users. *)
Definition ten_events : list (Log.row Z) :=
  [log_event "26" "NextSong" 1541207073796;
   log_event "26" "Home" 1541207100796;
   log_event "" "NextSong" 1541207123796;
   log_event "8" "NextSong" 1541207150796;
   log_event "8" "Logout" 1541207200796;
   log_event "15" "NextSong" 1541207250796;
   log_event "15" "NextSong" 1541207300796;
   log_event "15" "Help" 1541207350796;
   log_event "26" "NextSong" 1541207400796;
   log_event "8" "NextSong" 1541207450796].

Definition song_line : Song.row :=
  Song.mk (PyStr "SOUPIRU12A6D4FA1E1") (PyStr "Der Kleine Dompfaff")
    (PyStr "ARJIE2Y1187B994AB7") (PyInt 0) (PyFloat 5348865 (-15))
    (PyStr "Line Renaud") PyNone PyNone PyNone.

Definition other_song_line : Song.row :=
  Song.mk (PyStr "SOMZWCG12A8C13C480") (PyStr "I Didn't Mean To")
    (PyStr "ARD7TVE1187B99BFB1") (PyInt 0) (PyFloat 7160915 (-15))
    (PyStr "Casual") (PyStr "California - LA") PyNone PyNone.

(** A working directory with the two data roots of [main]. *)
Definition tree (log : list (Log.row Z)) : node :=
  Dir [("data",
        Dir [("song_data",
              Dir [("A", Dir [("TRAAAAW128F429D538.json",
                               File (Lines (SongFrame [song_line; other_song_line])));
                              ("README.txt", File Malformed)])]);
             ("log_data",
              Dir [("2018", Dir [("11", Dir [("2018-11-03-events.json",
                                              File (Lines (LogFrame log)))])])]);
             ("empty", Dir [("notes", Dir [("todo.txt", File Malformed)])])])].

Definition song_root : path := relpath ["data"; "song_data"].
Definition log_root : path := relpath ["data"; "log_data"].
Definition song_file : path :=
  relpath ["data"; "song_data"; "A"; "TRAAAAW128F429D538.json"].
Definition log_file : path :=
  relpath ["data"; "log_data"; "2018"; "11"; "2018-11-03-events.json"].

(** A directory in which [image-predictions.tsv] is a file already. *)
Definition present : Downloader.files :=
  fun n => if String.eqb n "image-predictions.tsv"
           then Some (Downloader.RegularFile "tweet_id jpg_url")
           else None.

Definition absent : Downloader.files := fun _ => None.

(** A catalogue with one song and its artist. *)
Definition catalogue : Sparkify.db :=
  Sparkify.mkdb
    [[PyStr "SOZCTXZ12AB0182364"; PyStr "Sehr kosmisch"; PyStr "AR5KOSW1187FB35FF4";
      PyInt 0; PyFloat 3671684301 (-24)]]
    [[PyStr "AR5KOSW1187FB35FF4"; PyStr "Harmonia"; PyNone; PyNone; PyNone]]
    [] [] [] [].

(** The same play, heard for a hundredth of a second less. *)
Definition shorter_play : Log.row Z :=
  Log.mk 1541207073796 (PyStr "") (PyStr "Ryan") (PyStr "Smith") (PyStr "M")
    (PyStr "free") (PyStr "NextSong") (PyStr "Sehr kosmisch") (PyStr "Harmonia")
    (PyFloat 7343033047 (-25)) (PyInt 583)
    (PyStr "San Jose-Sunnyvale-Santa Clara, CA") (PyStr "Mozilla/5.0").

Definition server (u : string) : string + string :=
  if String.eqb u Downloader.url then inr "tweet_id jpg_url img_num"
  else inl "ConnectionError".

End Sample.

(* ===================================================================== *)
(** ** etl.py: main *)
(* ===================================================================== *)

(** What [main] does, in order: the two calls that open the session, the
    events of the two runs of [process_data], and the two calls that close
    the session. *)
Inductive main_event : Type :=
| Connect (dsn : string) (raised : option string)
| OpenCursor (raised : option string)
| Ran (ev : event)
| CloseCursor
| CloseConnection.

Definition dsn : string :=
  "host=127.0.0.1 dbname=sparkifydb user=student password=student".

Definition connect_failed : string :=
  "ERROR: Unable to make a connection to the PostgreSQL database.".
Definition cursor_failed : string :=
  "ERROR: Unable to get a cursor to the PostgreSQL database.".

Section Main.
Context {DB : Type}.
Variable fs : node.
Variable cwd : list string.

(** [psycopg2.connect(dsn)] and [conn.cursor()]: each returns its object or
    raises a [psycopg2.Error]. *)
Variable psycopg2_connect : string -> string + connection DB.
Variable conn_cursor : connection DB -> string + cursor DB.

(** [main].  A local variable that was never assigned, because the call
    that would assign it raised, raises [UnboundLocalError] where it is
    read: [conn] in [conn.cursor()], [cur] in the first call of
    [process_data].  [cur.close()] and [conn.close()] are taken not to
    raise. *)
Definition main (db : DB) : DB * list main_event * result unit :=
  let conn_t :=
    match psycopg2_connect dsn with
    | inr conn => (Some conn, [Connect dsn None])
    | inl e => (None, [Connect dsn (Some e); Ran (Print connect_failed); Ran (Print e)])
    end in
  match fst conn_t with
  | None => (db, snd conn_t, Raise (PyException "UnboundLocalError"))
  | Some conn =>
      let cur_t :=
        match conn_cursor conn with
        | inr cur => (Some cur, [OpenCursor None])
        | inl e => (None, [OpenCursor (Some e); Ran (Print cursor_failed); Ran (Print e)])
        end in
      match fst cur_t with
      | None =>
          (db, snd conn_t ++ snd cur_t, Raise (PyException "UnboundLocalError"))
      | Some cur =>
          let songs :=
            process_data fs cwd cur conn (relpath ["data"; "song_data"])
              (process_song_file fs cwd) db in
          match outcome songs with
          | Raise e =>
              (final_db songs, snd conn_t ++ snd cur_t ++ map Ran (trace songs), Raise e)
          | Ok _ =>
              let logs :=
                process_data fs cwd cur conn (relpath ["data"; "log_data"])
                  (process_log_file fs cwd) (final_db songs) in
              match outcome logs with
              | Raise e =>
                  (final_db logs,
                   snd conn_t ++ snd cur_t ++ map Ran (trace songs)
                     ++ map Ran (trace logs),
                   Raise e)
              | Ok _ =>
                  (final_db logs,
                   snd conn_t ++ snd cur_t ++ map Ran (trace songs)
                     ++ map Ran (trace logs) ++ [CloseCursor; CloseConnection],
                   Ok tt)
              end
          end
      end
  end.

End Main.

Definition main_trace {DB : Type} (r : DB * list main_event * result unit)
    : list main_event := snd (fst r).
Definition main_outcome {DB : Type} (r : DB * list main_event * result unit)
    : result unit := snd r.

(** The events of the runs of [process_data] in a trace of [main]. *)
Definition ran (t : list main_event) : list event :=
  flat_map (fun ev => match ev with Ran e => [e] | _ => [] end) t.

Definition is_close (ev : main_event) : bool :=
  match ev with
  | CloseCursor | CloseConnection => true
  | _ => false
  end.

(* ===================================================================== *)
(** ** More ways to read a trace *)
(* ===================================================================== *)

(** The commits of a trace. *)
Definition commits (t : list event) : list event := filter is_commit t.

(** The lookups of a trace that raised, in [execute] or in [fetchone]. *)
Definition raised_lookups (t : list event) : list event :=
  filter (fun ev => match ev with
                    | Execute song_select _ (Some _) => true
                    | Fetchone (inl _) => true
                    | _ => false
                    end) t.

(** The rows of the file at [filepath] when it is a song file, and no row
    otherwise. *)
Definition song_rows (fs : node) (cwd : list string) (filepath : path)
    : list Song.row :=
  match lookup_node fs (resolve cwd filepath) with
  | Some (File (Lines (SongFrame rows))) => rows
  | _ => []
  end.

(** The statements of one line of a song file. *)
Definition song_statements (row : Song.row) : list (query * list pyval) :=
  [(song_table_insert, song_data row); (artist_table_insert, artist_data row)].



(* ===================================================================== *)
(** ** Sample inputs with faults *)
(* ===================================================================== *)

Module Faulty.

(** A song root with three files, the second of which is not JSON. *)
Definition tree : node :=
  Dir [("data",
        Dir [("song_data",
              Dir [("a.json", File (Lines (SongFrame [Sample.song_line])));
                   ("b.json", File Malformed);
                   ("c.json", File (Lines (SongFrame [Sample.other_song_line])))]);
             ("log_data",
              Dir [("one.json", File (Lines (LogFrame Sample.ten_events)));
                   ("two.json", File (Lines (LogFrame [Sample.anonymous_play])))])])].

Definition a_json : path := mkpath true ["data"; "song_data"; "a.json"].
Definition b_json : path := mkpath true ["data"; "song_data"; "b.json"].
Definition c_json : path := mkpath true ["data"; "song_data"; "c.json"].
Definition one_json : path := mkpath true ["data"; "log_data"; "one.json"].
Definition two_json : path := mkpath true ["data"; "log_data"; "two.json"].

(** A connection whose commits raise. *)
Definition broken_connection : connection unit :=
  mkconnection (fun db => (db, Some "server closed the connection unexpectedly"))
               (fun db => (db, None)).

(** A log of users who are logged in. *)
Definition logged_in : list (Log.row Z) :=
  [Sample.log_event "26" "NextSong" 1541207073796;
   Sample.log_event "8" "Home" 1541207100796;
   Sample.log_event "8" "NextSong" 1541207150796].

(** A driver that connects and gives a cursor, one that does not connect,
    and one that connects and gives no cursor. *)
Definition connects (s : string) : string + connection unit :=
  inr Sample.steady_connection.
Definition gives_cursor (conn : connection unit) : string + cursor unit :=
  inr Sample.steady_cursor.
Definition gives_no_cursor (conn : connection unit) : string + cursor unit :=
  inl "connection already closed".


Definition unreachable (u : string) : string + string := inl "ConnectionError".

(** A directory in which the name of the file is a directory. *)
Definition taken : Downloader.files :=
  fun n => if String.eqb n "image-predictions.tsv" then Some Downloader.Directory
           else None.

End Faulty.

(* ===================================================================== *)
(** * Properties *)
(* ===================================================================== *)

Lemma pyval_eqb_eq (a b : pyval) : pyval_eqb a b = true <-> a = b.
Proof.
  unfold pyval_eqb. destruct (pyval_eq_dec a b); split; congruence.
Qed.

Lemma pyval_eqb_neq (a b : pyval) : pyval_eqb a b = false <-> a <> b.
Proof.
  unfold pyval_eqb. destruct (pyval_eq_dec a b); split; congruence.
Qed.

Lemma query_eqb_refl (q : query) : query_eqb q q = true.
Proof. unfold query_eqb. destruct (query_eq_dec q q); congruence. Qed.

Lemma query_eqb_neq (a b : query) : a <> b -> query_eqb a b = false.
Proof. unfold query_eqb. destruct (query_eq_dec a b); congruence. Qed.

(* ===================================================================== *)
(** ** The calendar *)
(* ===================================================================== *)

Section CalendarFacts.
Import Calendar.

Example civil_epoch : civil_from_days 0 = (1970, 1, 1).
Proof. reflexivity. Qed.

Example civil_leap_day : civil_from_days 11016 = (2000, 2, 29).
Proof. reflexivity. Qed.

Example civil_before_epoch : civil_from_days (-1) = (1969, 12, 31).
Proof. reflexivity. Qed.

Example days_2018_11_03 : days_from_civil 2018 11 3 = 17838.
Proof. reflexivity. Qed.






End CalendarFacts.

(* ===================================================================== *)
(** ** Traces *)
(* ===================================================================== *)

Lemma executed_app (a b : list event) : executed (a ++ b) = executed a ++ executed b.
Proof. unfold executed. apply flat_map_app. Qed.

Lemma executed_report (line : string) (raised : option string) :
  executed (report line raised) = [].
Proof. destruct raised; reflexivity. Qed.

Lemma writes_to_app (q : query) (a b : list event) :
  writes_to q (a ++ b) = writes_to q a ++ writes_to q b.
Proof.
  unfold writes_to. now rewrite executed_app, filter_app, map_app.
Qed.

Lemma executed_concat (ts : list (list event)) :
  executed (List.concat ts) = List.concat (map executed ts).
Proof.
  induction ts as [|t ts IH]; simpl; [reflexivity|].
  now rewrite executed_app, IH.
Qed.

Lemma flat_map_singleton {A B : Type} (f : A -> B) (xs : list A) :
  flat_map (fun x => [f x]) xs = map f xs.
Proof. induction xs as [|x xs IH]; simpl; congruence. Qed.

Lemma flat_map_nil {A B : Type} (xs : list A) :
  flat_map (fun _ : A => @nil B) xs = [].
Proof. induction xs as [|x xs IH]; simpl; congruence. Qed.

(* ===================================================================== *)
(** ** Laws of the monad *)
(* ===================================================================== *)

Section EffectLemmas.
Context {DB : Type}.
Implicit Types (db : DB) (cur : cursor DB) (conn : connection DB).

Lemma bind_ok {A B : Type} (m : M A) (k : A -> M B) db a :
  outcome (m db) = Ok a ->
  bind m k db = (final_db (k a (final_db (m db))),
                 trace (m db) ++ trace (k a (final_db (m db))),
                 outcome (k a (final_db (m db)))).
Proof.
  unfold bind, outcome, final_db, trace.
  destruct (m db) as [[db1 t1] r]; simpl. intros ->.
  now destruct (k a db1) as [[db2 t2] r2].
Qed.

Lemma bind_ret {A B : Type} (a : A) (k : A -> M B) db :
  bind (ret a) k db = k a db.
Proof. unfold bind, ret. now destruct (k a db) as [[db2 t2] r]. Qed.

Lemma bind_outcome {A B : Type} (m : M A) (k : A -> M B) db a :
  outcome (m db) = Ok a ->
  outcome (bind m k db) = outcome (k a (final_db (m db))).
Proof. intros H. now rewrite (bind_ok _ _ _ _ H). Qed.

Lemma bind_trace {A B : Type} (m : M A) (k : A -> M B) db a :
  outcome (m db) = Ok a ->
  trace (bind m k db) = trace (m db) ++ trace (k a (final_db (m db))).
Proof. intros H. now rewrite (bind_ok _ _ _ _ H). Qed.

Lemma bind_final_db {A B : Type} (m : M A) (k : A -> M B) db a :
  outcome (m db) = Ok a ->
  final_db (bind m k db) = final_db (k a (final_db (m db))).
Proof. intros H. now rewrite (bind_ok _ _ _ _ H). Qed.

Lemma bind_raise {A B : Type} (m : M A) (k : A -> M B) db e :
  outcome (m db) = Raise e ->
  bind m k db = (final_db (m db), trace (m db), Raise e).
Proof.
  unfold bind, outcome, final_db, trace.
  destruct (m db) as [[db1 t1] r]; simpl. now intros ->.
Qed.

(** A guarded [execute] never raises: it runs the statement once and
    reports when the statement raised. *)
Lemma guarded_execute cur q params line db :
  (try cur_execute cur q params except e => (print line ;; print e))%py db
  = (fst (execute cur q params db),
     Execute q params (snd (execute cur q params db))
       :: report line (snd (execute cur q params db)),
     Ok tt).
Proof.
  unfold try_except, cur_execute, bind, print.
  now destruct (execute cur q params db) as [db1 [msg|]].
Qed.

Lemma guarded_insert_step cur q params line db :
  outcome ((try cur_execute cur q params except e => (print line ;; print e))%py db)
  = Ok tt /\
  insert_step q line params
    (trace ((try cur_execute cur q params except e => (print line ;; print e))%py db)).
Proof.
  rewrite guarded_execute. split; [reflexivity|].
  now exists (snd (execute cur q params db)).
Qed.

(** A loop whose body never raises runs its body once per element, in
    order: its trace is the bodies' traces one after the other.  [I] is
    an invariant of the database state that the bodies may rely on. *)
Lemma for_each_steps_inv {A : Type} (I : DB -> Prop) (body : A -> M unit)
    (P : A -> list event -> Prop) :
  (forall x db, I db ->
     outcome (body x db) = Ok tt /\ P x (trace (body x db)) /\
     I (final_db (body x db))) ->
  forall xs db, I db ->
    outcome (for_each xs body db) = Ok tt /\
    I (final_db (for_each xs body db)) /\
    exists ts, trace (for_each xs body db) = List.concat ts /\ Forall2 P xs ts.
Proof.
  intros Hbody xs. induction xs as [|x xs IH]; intros db Hdb; simpl.
  - repeat split; [exact Hdb|]. exists []. split; [reflexivity|constructor].
  - destruct (Hbody x db Hdb) as [Hok [HP HI]].
    rewrite (bind_ok _ _ _ _ Hok). cbn [outcome trace final_db fst snd].
    destruct (IH (final_db (body x db)) HI) as [Hok' [HI' [ts [Ht HF]]]].
    repeat split; [exact Hok'|exact HI'|].
    exists (trace (body x db) :: ts). simpl. rewrite Ht.
    split; [reflexivity|]. now constructor.
Qed.

Lemma for_each_steps {A : Type} (body : A -> M unit) (P : A -> list event -> Prop) :
  (forall x db, outcome (body x db) = Ok tt /\ P x (trace (body x db))) ->
  forall xs db,
    outcome (for_each xs body db) = Ok tt /\
    exists ts, trace (for_each xs body db) = List.concat ts /\ Forall2 P xs ts.
Proof.
  intros Hbody xs db.
  destruct (for_each_steps_inv (fun _ => True) body P) with (xs := xs) (db := db)
    as [Hok [_ Hts]]; auto.
  intros x db' _. destruct (Hbody x db'). auto.
Qed.

(** A loop whose body may raise stops at the first body that does: its
    trace is the traces of the bodies that ran, and when the loop ends
    normally every body ran. *)
Lemma for_each_prefix {A : Type} (body : A -> M unit) (P : A -> list event -> Prop) :
  (forall x db, P x (trace (body x db))) ->
  forall xs db,
    exists ts,
      trace (for_each xs body db) = List.concat ts /\
      Forall2 P (firstn (List.length ts) xs) ts /\
      (outcome (for_each xs body db) = Ok tt -> List.length ts = List.length xs).
Proof.
  intros Hbody xs. induction xs as [|x xs IH]; intros db; simpl.
  - exists []. repeat split; constructor.
  - destruct (outcome (body x db)) as [[]|e] eqn:Hout.
    + rewrite (bind_ok _ _ _ _ Hout). cbn [outcome trace fst snd].
      destruct (IH (final_db (body x db))) as [ts [Ht [HF Hlen]]].
      exists (trace (body x db) :: ts). simpl. rewrite Ht.
      repeat split; [constructor; [apply Hbody|exact HF]|].
      intros Hok. now rewrite (Hlen Hok).
    + rewrite (bind_raise _ _ _ _ Hout). cbn [outcome trace fst snd].
      exists [trace (body x db)]. simpl. rewrite app_nil_r.
      repeat split; [constructor; [apply Hbody|constructor]|discriminate].
Qed.

(** Iterating over [map f xs] is iterating over [xs] and applying [f]. *)
Lemma for_each_map {A B : Type} (f : A -> B) (body : B -> M unit) xs db :
  for_each (map f xs) body db = for_each xs (fun x => body (f x)) db.
Proof.
  revert db. induction xs as [|x xs IH]; intros db; simpl; [reflexivity|].
  unfold bind. destruct (body (f x) db) as [[db1 t1] [[]|e]]; [|reflexivity].
  now rewrite IH.
Qed.

End EffectLemmas.

(* ===================================================================== *)
(** ** What one file does *)
(* ===================================================================== *)

Lemma time_df_columns (t : list (Log.row Timestamp)) :
  map snd (time_df t) = time_data t.
Proof. reflexivity. Qed.

Lemma iterrows_time_df (t : list (Log.row Timestamp)) :
  iterrows (map snd (time_df t)) (List.length t) = map time_row t.
Proof.
  rewrite time_df_columns.
  induction t as [|r t IH]; [reflexivity|].
  cbn [List.length iterrows]. unfold time_data at 1 2. cbn [map hd tl].
  fold (time_data t). fold (time_row r). now rewrite IH.
Qed.

Section FileFacts.
Context {DB : Type}.
Variable fs : node.
Variable cwd : list string.
Implicit Types (db : DB) (cur : cursor DB).

Lemma songplay_body_step cur row db :
  outcome (songplay_body cur row db) = Ok tt /\
  songplay_step row (trace (songplay_body cur row db)).
Proof.
  unfold songplay_body, try_except, bind, cur_execute, cur_fetchone, print,
    outcome, trace.
  destruct (execute cur song_select _ db) as [db1 [msg|]].
  - split; [reflexivity|]. apply step_select_raised.
  - destruct (fetchone cur db1) as [db2 [msg|results]].
    + split; [reflexivity|]. apply step_fetch_raised.
    + destruct (execute cur songplay_table_insert _ db2) as [db3 [msg|]].
      * split; [reflexivity|]. apply (step_inserted row results (Some msg)).
      * split; [reflexivity|]. apply (step_inserted row results None).
Qed.

(** [process_log_file] on a log: it never raises, and its trace is the
    three loops, each one step per row that the filters keep. *)
Lemma process_log_file_steps cur filepath rows db :
  lookup_node fs (resolve cwd filepath) = Some (File (Lines (LogFrame rows))) ->
  outcome (process_log_file fs cwd cur filepath db) = Ok tt /\
  exists time_steps user_steps songplay_steps,
    trace (process_log_file fs cwd cur filepath db)
    = List.concat time_steps ++ List.concat user_steps ++ List.concat songplay_steps /\
    Forall2 (fun r => insert_step time_table_insert time_failed (time_row r))
            (filtered rows) time_steps /\
    Forall2 (fun r => insert_step user_table_insert user_failed (user_row r))
            (filtered rows) user_steps /\
    Forall2 songplay_step (filtered rows) songplay_steps.
Proof.
  intros Hfile. unfold process_log_file, pd_read_json. rewrite Hfile.
  rewrite bind_ret. cbv beta iota zeta.
  set (time_loop := for_each (iterrows _ _) _).
  set (user_loop := for_each (map user_row _) _).
  set (songplay_loop := for_each (filtered rows) _).
  assert (Htime : forall d, outcome (time_loop d) = Ok tt /\
            exists ts, trace (time_loop d) = List.concat ts /\
              Forall2 (fun r => insert_step time_table_insert time_failed (time_row r))
                (filtered rows) ts).
  { intros d. subst time_loop. rewrite iterrows_time_df, for_each_map.
    apply for_each_steps. intros x d'. apply guarded_insert_step. }
  assert (Huser : forall d, outcome (user_loop d) = Ok tt /\
            exists ts, trace (user_loop d) = List.concat ts /\
              Forall2 (fun r => insert_step user_table_insert user_failed (user_row r))
                (filtered rows) ts).
  { intros d. subst user_loop. rewrite for_each_map.
    apply for_each_steps. intros x d'. apply guarded_insert_step. }
  assert (Hsp : forall d, outcome (songplay_loop d) = Ok tt /\
            exists ts, trace (songplay_loop d) = List.concat ts /\
              Forall2 songplay_step (filtered rows) ts).
  { intros d. subst songplay_loop.
    apply (for_each_steps (songplay_body cur)). intros x d'.
    apply songplay_body_step. }
  clearbody time_loop user_loop songplay_loop.
  destruct (Htime db) as [Hok1 [ts1 [Ht1 HF1]]].
  destruct (Huser (final_db (time_loop db))) as [Hok2 [ts2 [Ht2 HF2]]].
  destruct (Hsp (final_db (user_loop (final_db (time_loop db)))))
    as [Hok3 [ts3 [Ht3 HF3]]].
  split.
  - now rewrite (bind_outcome _ _ _ _ Hok1), (bind_outcome _ _ _ _ Hok2).
  - exists ts1, ts2, ts3.
    rewrite (bind_trace _ _ _ _ Hok1), (bind_trace _ _ _ _ Hok2), Ht1, Ht2, Ht3.
    auto.
Qed.

(** [process_song_file] on a song file: it never raises, and its trace
    is one step per line. *)
Lemma process_song_file_steps cur filepath rows db :
  lookup_node fs (resolve cwd filepath) = Some (File (Lines (SongFrame rows))) ->
  outcome (process_song_file fs cwd cur filepath db) = Ok tt /\
  exists steps,
    trace (process_song_file fs cwd cur filepath db) = List.concat steps /\
    Forall2 song_step rows steps.
Proof.
  intros Hfile. unfold process_song_file, pd_read_json. rewrite Hfile.
  rewrite bind_ret. cbv beta iota.
  apply for_each_steps. intros row d.
  destruct (guarded_insert_step cur song_table_insert (song_data row) song_failed d)
    as [Hok1 Hstep1].
  unfold song_failed in Hok1 at 1.
  rewrite (bind_outcome _ _ _ _ Hok1), (bind_trace _ _ _ _ Hok1).
  match goal with
  | |- context [try_except ?b ?h ?d'] =>
      destruct (guarded_insert_step cur artist_table_insert (artist_data row)
                  artist_failed d')
        as [Hok2 Hstep2]
  end.
  split; [exact Hok2|].
  eexists _, _. split; [reflexivity|]. split; [exact Hstep1|exact Hstep2].
Qed.

(** On anything but a log, [process_log_file] raises before it calls the
    database. *)
Lemma process_log_file_not_log cur filepath db :
  (forall rows,
     lookup_node fs (resolve cwd filepath) <> Some (File (Lines (LogFrame rows)))) ->
  trace (process_log_file fs cwd cur filepath db) = [].
Proof.
  intros Hnot. unfold process_log_file, pd_read_json.
  destruct (lookup_node fs (resolve cwd filepath)) as [[[[rows|rows]|]|entries]|];
    try reflexivity.
  now destruct (Hnot rows).
Qed.

End FileFacts.

(* ===================================================================== *)
(** ** Reading the steps of a file *)
(* ===================================================================== *)

Lemma executed_steps {A : Type} (P : A -> list event -> Prop)
    (f : A -> list (query * list pyval)) (xs : list A) (ts : list (list event)) :
  Forall2 P xs ts ->
  (forall x t, P x t -> executed t = f x) ->
  executed (List.concat ts) = flat_map f xs.
Proof.
  intros HF Hf. induction HF as [|x t xs ts Hx _ IH]; [reflexivity|].
  cbn [List.concat flat_map]. now rewrite executed_app, (Hf _ _ Hx), IH.
Qed.

Lemma writes_to_steps {A : Type} (P : A -> list event -> Prop) (q : query)
    (f : A -> list (list pyval)) (xs : list A) (ts : list (list event)) :
  Forall2 P xs ts ->
  (forall x t, P x t -> writes_to q t = f x) ->
  writes_to q (List.concat ts) = flat_map f xs.
Proof.
  intros HF Hf. induction HF as [|x t xs ts Hx _ IH]; [reflexivity|].
  cbn [List.concat flat_map]. now rewrite writes_to_app, (Hf _ _ Hx), IH.
Qed.

Lemma forallb_steps {A : Type} (P : A -> list event -> Prop) (g : event -> bool)
    (xs : list A) (ts : list (list event)) :
  Forall2 P xs ts ->
  (forall x t, P x t -> forallb g t = true) ->
  forallb g (List.concat ts) = true.
Proof.
  intros HF Hg. induction HF as [|x t xs ts Hx _ IH]; [reflexivity|].
  cbn [List.concat]. now rewrite forallb_app, (Hg _ _ Hx), IH.
Qed.

Lemma insert_step_executed q line params t :
  insert_step q line params t -> executed t = [(q, params)].
Proof.
  intros [raised ->]. cbn. change (flat_map _ ?l) with (executed l).
  now rewrite executed_report.
Qed.

Lemma insert_step_writes q line params t q' :
  insert_step q line params t ->
  writes_to q' t = if query_eqb q q' then [params] else [].
Proof.
  intros H. unfold writes_to. rewrite (insert_step_executed _ _ _ _ H). cbn.
  now destruct (query_eqb q q').
Qed.

Lemma report_keeps_transaction line raised :
  forallb keeps_transaction (report line raised) = true.
Proof. now destruct raised. Qed.

Lemma insert_step_keeps_transaction q line params t :
  insert_step q line params t -> forallb keeps_transaction t = true.
Proof.
  intros [raised ->]. cbn [forallb]. now rewrite report_keeps_transaction.
Qed.

Lemma song_step_executed row t :
  song_step row t ->
  executed t = [(song_table_insert, song_data row); (artist_table_insert, artist_data row)].
Proof.
  intros [t1 [t2 [-> [H1 H2]]]].
  now rewrite executed_app, (insert_step_executed _ _ _ _ H1),
    (insert_step_executed _ _ _ _ H2).
Qed.

Lemma song_step_keeps_transaction row t :
  song_step row t -> forallb keeps_transaction t = true.
Proof.
  intros [t1 [t2 [-> [H1 H2]]]].
  now rewrite forallb_app, (insert_step_keeps_transaction _ _ _ _ H1),
    (insert_step_keeps_transaction _ _ _ _ H2).
Qed.

Lemma songplay_step_keeps_transaction row t :
  songplay_step row t -> forallb keeps_transaction t = true.
Proof.
  intros [msg|msg|results raised]; try reflexivity.
  cbn [forallb]. now rewrite report_keeps_transaction.
Qed.

Lemma songplay_step_lookups row t :
  songplay_step row t -> writes_to song_select t = [lookup_args row].
Proof.
  intros [msg|msg|results raised]; try reflexivity.
  unfold writes_to. cbn. change (flat_map _ ?l) with (executed l).
  now rewrite executed_report.
Qed.

Lemma songplay_step_other_writes row t q :
  songplay_step row t -> q <> song_select -> q <> songplay_table_insert ->
  writes_to q t = [].
Proof.
  intros Hstep H1 H2.
  assert (E1 : query_eqb song_select q = false) by (apply query_eqb_neq; congruence).
  assert (E2 : query_eqb songplay_table_insert q = false)
    by (apply query_eqb_neq; congruence).
  destruct Hstep as [msg|msg|results raised]; unfold writes_to; cbn;
    rewrite ?E1; try reflexivity.
  change (flat_map _ ?l) with (executed l).
  now rewrite E2, executed_report.
Qed.

(** A step whose lookup raised has no songplay insert and reports the
    failed query; a step whose lookup returned has the one insert. *)
Lemma songplay_step_raised row t :
  songplay_step row t -> lookup_raised t = true ->
  writes_to songplay_table_insert t = [] /\ In (Print query_failed) t.
Proof.
  intros [msg|msg|results raised] Hraised.
  - split; [reflexivity|]. right. now left.
  - split; [reflexivity|]. right. right. now left.
  - exfalso. unfold lookup_raised in Hraised. cbn in Hraised.
    destruct raised; cbn in Hraised; discriminate.
Qed.

Lemma songplay_step_returned row t :
  songplay_step row t -> lookup_raised t = false ->
  exists results,
    In (Fetchone (inr results)) t /\
    writes_to songplay_table_insert t
    = [songplay_data row (fst (ids_of results)) (snd (ids_of results))].
Proof.
  intros [msg|msg|results raised] Hraised; try discriminate.
  exists results. split; [right; now left|].
  unfold writes_to. cbn. change (flat_map _ ?l) with (executed l).
  now rewrite executed_report.
Qed.

(** The writes of one guarded insert to a given statement. *)
Ltac insert_writes :=
  let x := fresh "x" in
  let t := fresh "t" in
  let Hx := fresh "Hx" in
  intros x t Hx;
  match goal with
  | |- writes_to ?q _ = _ => rewrite (insert_step_writes _ _ _ _ q Hx); reflexivity
  end.

Section LogWrites.
Context {DB : Type}.
Variable fs : node.
Variable cwd : list string.
Implicit Types (db : DB) (cur : cursor DB).

Lemma log_rows_cases filepath :
  lookup_node fs (resolve cwd filepath)
    = Some (File (Lines (LogFrame (log_rows fs cwd filepath)))) \/
  ((forall rows,
      lookup_node fs (resolve cwd filepath) <> Some (File (Lines (LogFrame rows)))) /\
   log_rows fs cwd filepath = []).
Proof.
  unfold log_rows.
  destruct (lookup_node fs (resolve cwd filepath)) as [[[[rows|rows]|]|entries]|];
    try (right; split; [intros rows'; discriminate|reflexivity]).
  now left.
Qed.

(** The inserts into the time table: one per row that the filters keep, in
    order, whatever the cursor does. *)
Lemma time_writes cur filepath db :
  writes_to time_table_insert (trace (process_log_file fs cwd cur filepath db))
  = map time_row (filtered (log_rows fs cwd filepath)).
Proof.
  destruct (log_rows_cases filepath) as [Hlog|[Hnot ->]].
  - destruct (process_log_file_steps fs cwd cur filepath _ db Hlog)
      as [_ [ts1 [ts2 [ts3 [-> [H1 [H2 H3]]]]]]].
    rewrite !writes_to_app.
    rewrite (writes_to_steps _ _ (fun r => [time_row r]) _ _ H1)
      by insert_writes.
    rewrite (writes_to_steps _ _ (fun _ => []) _ _ H2)
      by insert_writes.
    rewrite (writes_to_steps _ _ (fun _ => []) _ _ H3)
      by (intros x t Hx; apply (songplay_step_other_writes _ _ _ Hx); discriminate).
    now rewrite !flat_map_nil, !app_nil_r, flat_map_singleton.
  - now rewrite (process_log_file_not_log fs cwd cur filepath db Hnot).
Qed.

(** The inserts into the users table, likewise. *)
Lemma user_writes cur filepath db :
  writes_to user_table_insert (trace (process_log_file fs cwd cur filepath db))
  = map user_row (filtered (log_rows fs cwd filepath)).
Proof.
  destruct (log_rows_cases filepath) as [Hlog|[Hnot ->]].
  - destruct (process_log_file_steps fs cwd cur filepath _ db Hlog)
      as [_ [ts1 [ts2 [ts3 [-> [H1 [H2 H3]]]]]]].
    rewrite !writes_to_app.
    rewrite (writes_to_steps _ _ (fun _ => []) _ _ H1)
      by insert_writes.
    rewrite (writes_to_steps _ _ (fun r => [user_row r]) _ _ H2)
      by insert_writes.
    rewrite (writes_to_steps _ _ (fun _ => []) _ _ H3)
      by (intros x t Hx; apply (songplay_step_other_writes _ _ _ Hx); discriminate).
    now rewrite !flat_map_nil, app_nil_r, flat_map_singleton.
  - now rewrite (process_log_file_not_log fs cwd cur filepath db Hnot).
Qed.

(** The lookups, likewise: one per row that the filters keep. *)
Lemma lookups cur filepath db :
  writes_to song_select (trace (process_log_file fs cwd cur filepath db))
  = map lookup_args (filtered (log_rows fs cwd filepath)).
Proof.
  destruct (log_rows_cases filepath) as [Hlog|[Hnot ->]].
  - destruct (process_log_file_steps fs cwd cur filepath _ db Hlog)
      as [_ [ts1 [ts2 [ts3 [-> [H1 [H2 H3]]]]]]].
    rewrite !writes_to_app.
    rewrite (writes_to_steps _ _ (fun _ => []) _ _ H1)
      by insert_writes.
    rewrite (writes_to_steps _ _ (fun _ => []) _ _ H2)
      by insert_writes.
    rewrite (writes_to_steps _ _ (fun r => [lookup_args r]) _ _ H3)
      by (intros x t Hx; apply (songplay_step_lookups _ _ Hx)).
    now rewrite !flat_map_nil, flat_map_singleton.
  - now rewrite (process_log_file_not_log fs cwd cur filepath db Hnot).
Qed.

(** No event of a log file's processing ends or undoes a transaction. *)
Lemma log_file_keeps_transaction cur filepath db :
  forallb keeps_transaction (trace (process_log_file fs cwd cur filepath db)) = true.
Proof.
  destruct (log_rows_cases filepath) as [Hlog|[Hnot _]].
  - destruct (process_log_file_steps fs cwd cur filepath _ db Hlog)
      as [_ [ts1 [ts2 [ts3 [-> [H1 [H2 H3]]]]]]].
    rewrite !forallb_app.
    rewrite (forallb_steps _ _ _ _ H1)
      by (intros x t Hx; apply (insert_step_keeps_transaction _ _ _ _ Hx)).
    rewrite (forallb_steps _ _ _ _ H2)
      by (intros x t Hx; apply (insert_step_keeps_transaction _ _ _ _ Hx)).
    now rewrite (forallb_steps _ _ _ _ H3)
      by (intros x t Hx; apply (songplay_step_keeps_transaction _ _ Hx)).
  - now rewrite (process_log_file_not_log fs cwd cur filepath db Hnot).
Qed.

End LogWrites.

(* ===================================================================== *)
(** ** The time table *)
(* ===================================================================== *)

(** C10: in every row written to the time table the [week] field (the
    fourth parameter) equals the [weekday] field (the seventh): both are
    the day of the week of the row's timestamp, and the two columns of
    [time_df] are the same column. *)
Theorem week_equals_weekday {DB : Type} (fs : node) (cwd : list string)
    (cur : cursor DB) (filepath : path) (db : DB) :
  Forall (fun row => nth 3 row PyNone = nth 6 row PyNone)
    (writes_to time_table_insert (trace (process_log_file fs cwd cur filepath db))) /\
  nth_error column_labels 3 = Some "week" /\
  nth_error column_labels 6 = Some "weekday" /\
  forall t,
    column "week" (time_df t)
      = Some (map (fun r => PyInt (Calendar.dayofweek (Log.ts r))) t) /\
    column "weekday" (time_df t) = column "week" (time_df t).
Proof.
  split; [|repeat split; reflexivity].
  rewrite time_writes. apply Forall_forall. intros row Hin.
  apply in_map_iff in Hin. destruct Hin as [r [<- _]]. reflexivity.
Qed.


(* ===================================================================== *)
(** ** Song files *)
(* ===================================================================== *)

Lemma writes_of_song_steps (rows : list Song.row) :
  map snd (filter (fun qp => query_eqb (fst qp) song_table_insert)
             (flat_map (fun row => [(song_table_insert, song_data row);
                                    (artist_table_insert, artist_data row)]) rows))
    = map song_data rows /\
  map snd (filter (fun qp => query_eqb (fst qp) artist_table_insert)
             (flat_map (fun row => [(song_table_insert, song_data row);
                                    (artist_table_insert, artist_data row)]) rows))
    = map artist_data rows.
Proof.
  induction rows as [|row rows [IH1 IH2]]; [split; reflexivity|].
  cbn [flat_map app filter fst map snd]. cbn [query_eqb].
  split; cbn; [now rewrite IH1|now rewrite IH2].
Qed.

(** C9: on a song file [process_song_file] issues, for each line in file
    order, one insert into the songs table with (song_id, title,
    artist_id, year, duration) and then one insert into the artists table
    with (artist_id, name, location, latitude, longitude), and nothing
    else, whether or not an insert raises. *)
Theorem song_file_one_write_per_line {DB : Type} (fs : node) (cwd : list string)
    (cur : cursor DB) (filepath : path) (rows : list Song.row) (db : DB) :
  lookup_node fs (resolve cwd filepath) = Some (File (Lines (SongFrame rows))) ->
  outcome (process_song_file fs cwd cur filepath db) = Ok tt /\
  executed (trace (process_song_file fs cwd cur filepath db))
    = flat_map (fun row => [(song_table_insert, song_data row);
                            (artist_table_insert, artist_data row)]) rows /\
  writes_to song_table_insert (trace (process_song_file fs cwd cur filepath db))
    = map song_data rows /\
  writes_to artist_table_insert (trace (process_song_file fs cwd cur filepath db))
    = map artist_data rows /\
  (forall row,
     song_data row = [Song.song_id row; Song.title row; Song.artist_id row;
                      Song.year row; Song.duration row] /\
     artist_data row = [Song.artist_id row; Song.artist_name row;
                        Song.artist_location row; Song.artist_latitude row;
                        Song.artist_longitude row]).
Proof.
  intros Hfile.
  destruct (process_song_file_steps fs cwd cur filepath rows db Hfile)
    as [Hok [steps [Ht HF]]].
  assert (Hex : executed (trace (process_song_file fs cwd cur filepath db))
                = flat_map (fun row => [(song_table_insert, song_data row);
                                        (artist_table_insert, artist_data row)]) rows).
  { rewrite Ht. apply (executed_steps _ _ _ _ HF). apply song_step_executed. }
  destruct (writes_of_song_steps rows) as [Hs Ha].
  repeat split; try assumption.
  - unfold writes_to. now rewrite Hex.
  - unfold writes_to. now rewrite Hex.
Qed.

(** A song file of two lines, on a cursor whose every statement raises. *)
Lemma song_file_one_write_per_line_witness :
  lookup_node (Sample.tree []) (resolve [] Sample.song_file)
    = Some (File (Lines (SongFrame [Sample.song_line; Sample.other_song_line]))) /\
  writes_to song_table_insert
    (trace (process_song_file (Sample.tree []) []
              (Sample.flaky_cursor (fun _ _ => Some "server closed the connection") None)
              Sample.song_file tt))
    = [song_data Sample.song_line; song_data Sample.other_song_line].
Proof.
  split; [reflexivity|].
  apply (song_file_one_write_per_line (Sample.tree []) []
           (Sample.flaky_cursor (fun _ _ => Some "server closed the connection") None)
           Sample.song_file [Sample.song_line; Sample.other_song_line] tt).
  reflexivity.
Defined.

(* ===================================================================== *)
(** ** The filters of a log file *)
(* ===================================================================== *)

Lemma filter_twice {A : Type} (f g : A -> bool) (l : list A) :
  filter g (filter f l) = filter (fun x => f x && g x) l.
Proof.
  induction l as [|x l IH]; [reflexivity|].
  cbn [filter]. destruct (f x); cbn [andb filter]; [|exact IH].
  destruct (g x); now rewrite IH.
Qed.

(** What the two filters keep: the plays whose user id is the empty
    string. *)
Lemma filtered_keeps (rows : list (Log.row Z)) :
  filtered rows
  = map (Log.set_ts to_datetime_ms)
      (filter (fun r => pyval_eqb (Log.userId r) (PyStr "") &&
                        pyval_eqb (Log.page r) (PyStr "NextSong")) rows).
Proof.
  unfold filtered. f_equal. rewrite filter_twice.
  apply filter_ext. intros r. unfold isin. cbn [existsb].
  now rewrite orb_false_r.
Qed.

(** Every row written to the users table has the empty string as its user
    id, whatever the log and the cursor. *)
Lemma user_writes_have_no_user_id {DB : Type} (fs : node) (cwd : list string)
    (cur : cursor DB) (filepath : path) (db : DB) :
  Forall (fun row => nth 0 row PyNone = PyStr "")
    (writes_to user_table_insert (trace (process_log_file fs cwd cur filepath db))).
Proof.
  rewrite user_writes, filtered_keeps, map_map. apply Forall_forall.
  intros row Hin. apply in_map_iff in Hin. destruct Hin as [r [<- Hr]].
  apply filter_In in Hr. destruct Hr as [_ Hr].
  apply andb_true_iff in Hr. destruct Hr as [Hr _].
  apply pyval_eqb_eq in Hr. exact Hr.
Qed.

(** C1: a log of two plays, one of a visitor without user id and one of
    user 26.  The row written to the users table is the visitor's, with
    the empty user id, and user 26 is not written; on a cursor that never
    raises the songplay written is the visitor's too. *)
Theorem empty_user_id_is_what_is_written {DB : Type} (cur : cursor DB) (db : DB) :
  writes_to user_table_insert
    (trace (process_log_file (Sample.tree [Sample.anonymous_play; Sample.user_play]) []
              cur Sample.log_file db))
    = [[PyStr ""; PyStr "Ryan"; PyStr "Smith"; PyStr "M"; PyStr "free"]] /\
  writes_to songplay_table_insert
    (trace (process_log_file (Sample.tree [Sample.anonymous_play; Sample.user_play]) []
              Sample.steady_cursor Sample.log_file tt))
    = [[PyTimestamp 1541207073796; PyStr ""; PyStr "free"; PyNone; PyNone; PyInt 583;
        PyStr "San Jose-Sunnyvale-Santa Clara, CA"; PyStr "Mozilla/5.0"]].
Proof.
  split; [|reflexivity].
  rewrite user_writes. reflexivity.
Qed.

(** C4: the ten events of the specification's example, of which six are
    plays of a user with an id.  The filters keep one row, the play
    without user id, and one row is written to the time table. *)
Theorem ten_events_keep_one {DB : Type} (cur : cursor DB) (db : DB) :
  List.length Sample.ten_events = 10%nat /\
  List.length (filter (fun r => pyval_eqb (Log.page r) (PyStr "NextSong") &&
                                negb (pyval_eqb (Log.userId r) (PyStr "")))
                 Sample.ten_events) = 6%nat /\
  List.length (filtered Sample.ten_events) = 1%nat /\
  map (@Log.userId Timestamp) (filtered Sample.ten_events) = [PyStr ""] /\
  List.length
    (writes_to time_table_insert
       (trace (process_log_file (Sample.tree Sample.ten_events) [] cur
                 Sample.log_file db))) = 1%nat.
Proof.
  repeat split; try reflexivity.
  rewrite time_writes. reflexivity.
Qed.

(* ===================================================================== *)
(** ** The songplay lookup *)
(* ===================================================================== *)

Section SongplayLoop.
Context {DB : Type}.
Variable fs : node.
Variable cwd : list string.

(** The trace of a log file is what the first two loops do, which touches
    neither the lookup nor the songplays table, and then one step of the
    third loop per row that the filters keep. *)
Lemma songplay_steps_of_log (cur : cursor DB) filepath rows db :
  lookup_node fs (resolve cwd filepath) = Some (File (Lines (LogFrame rows))) ->
  exists before steps,
    trace (process_log_file fs cwd cur filepath db) = before ++ List.concat steps /\
    writes_to song_select before = [] /\
    writes_to songplay_table_insert before = [] /\
    Forall2 songplay_step (filtered rows) steps.
Proof.
  intros Hfile.
  destruct (process_log_file_steps fs cwd cur filepath rows db Hfile)
    as [_ [ts1 [ts2 [ts3 [Ht [H1 [H2 H3]]]]]]].
  exists (List.concat ts1 ++ List.concat ts2), ts3.
  rewrite Ht, app_assoc. repeat split; [| |exact H3].
  - rewrite writes_to_app.
    rewrite (writes_to_steps _ _ (fun _ => []) _ _ H1) by insert_writes.
    rewrite (writes_to_steps _ _ (fun _ => []) _ _ H2) by insert_writes.
    now rewrite !flat_map_nil.
  - rewrite writes_to_app.
    rewrite (writes_to_steps _ _ (fun _ => []) _ _ H1) by insert_writes.
    rewrite (writes_to_steps _ _ (fun _ => []) _ _ H2) by insert_writes.
    now rewrite !flat_map_nil.
Qed.

End SongplayLoop.

(** C2, as the code has it: a lookup that raises is caught and reported,
    the file's processing goes on with the next row and ends normally, and
    the row whose lookup raised gets no songplay insert. *)
Theorem lookup_failure_skips_the_songplay {DB : Type} (fs : node) (cwd : list string)
    (cur : cursor DB) (filepath : path) (rows : list (Log.row Z)) (db : DB) :
  lookup_node fs (resolve cwd filepath) = Some (File (Lines (LogFrame rows))) ->
  outcome (process_log_file fs cwd cur filepath db) = Ok tt /\
  exists before steps,
    trace (process_log_file fs cwd cur filepath db) = before ++ List.concat steps /\
    writes_to song_select before = [] /\
    writes_to songplay_table_insert before = [] /\
    Forall2 (fun row t =>
               songplay_step row t /\
               writes_to song_select t = [lookup_args row] /\
               (lookup_raised t = true ->
                writes_to songplay_table_insert t = [] /\
                In (Print query_failed) t))
            (filtered rows) steps.
Proof.
  intros Hfile.
  split; [apply (process_log_file_steps fs cwd cur filepath rows db Hfile)|].
  destruct (songplay_steps_of_log fs cwd cur filepath rows db Hfile)
    as [before [steps [Ht [Hb1 [Hb2 HF]]]]].
  exists before, steps. repeat split; try assumption.
  clear Ht. induction HF as [|row t rs ts Hstep _ IH]; constructor; [|exact IH].
  split; [exact Hstep|]. split; [apply (songplay_step_lookups _ _ Hstep)|].
  apply (songplay_step_raised _ _ Hstep).
Qed.

(** A log of one play, on a cursor whose lookups raise. *)
Lemma lookup_failure_skips_the_songplay_witness :
  lookup_node (Sample.tree [Sample.anonymous_play]) (resolve [] Sample.log_file)
    = Some (File (Lines (LogFrame [Sample.anonymous_play]))) /\
  outcome (process_log_file (Sample.tree [Sample.anonymous_play]) []
             (Sample.flaky_cursor Sample.lookup_fails None) Sample.log_file tt)
    = Ok tt.
Proof.
  split; [reflexivity|].
  apply (lookup_failure_skips_the_songplay (Sample.tree [Sample.anonymous_play]) []
           (Sample.flaky_cursor Sample.lookup_fails None) Sample.log_file
           [Sample.anonymous_play] tt).
  reflexivity.
Defined.

(** C2, as stated, fails: one play is kept, its lookup raises, the file is
    processed to its end, and no songplay is inserted, with null ids or
    otherwise. *)
Lemma lookup_failure_inserts_nothing :
  List.length (filtered [Sample.anonymous_play]) = 1%nat /\
  executed (trace (process_log_file (Sample.tree [Sample.anonymous_play]) []
                     (Sample.flaky_cursor Sample.lookup_fails None)
                     Sample.log_file tt))
    = [(time_table_insert,
        [PyTimestamp 1541207073796; PyInt 1; PyInt 3; PyInt 5; PyInt 11;
         PyInt 2018; PyInt 5]);
       (user_table_insert,
        [PyStr ""; PyStr "Ryan"; PyStr "Smith"; PyStr "M"; PyStr "free"]);
       (song_select,
        [PyStr "Sehr kosmisch"; PyStr "Harmonia"; PyFloat 3671684301 (-24)])] /\
  writes_to songplay_table_insert
    (trace (process_log_file (Sample.tree [Sample.anonymous_play]) []
              (Sample.flaky_cursor Sample.lookup_fails None) Sample.log_file tt))
    = [] /\
  outcome (process_log_file (Sample.tree [Sample.anonymous_play]) []
             (Sample.flaky_cursor Sample.lookup_fails None) Sample.log_file tt)
    = Ok tt.
Proof. repeat split. Qed.

(* ===================================================================== *)
(** ** The lookup on the database of the specification *)
(* ===================================================================== *)

Section SparkifyFacts.
Import Sparkify.

Lemma pair_matches_spec (args s a : list pyval) :
  pair_matches args s a = true <->
  col 2 s = col 0 a /\ col 1 s = col 0 args /\ col 1 a = col 1 args /\
  col 4 s = col 2 args.
Proof.
  unfold pair_matches. rewrite !andb_true_iff, !pyval_eqb_eq. tauto.
Qed.

Lemma select_song_In (d : db) (args : list pyval) (sid aid : pyval) :
  In (sid, aid) (select_song d args) <->
  exists s a, In s (songs d) /\ In a (artists d) /\
              pair_matches args s a = true /\ sid = col 0 s /\ aid = col 0 a.
Proof.
  unfold select_song. rewrite in_flat_map. split.
  - intros [s [Hs Hin]]. apply in_flat_map in Hin. destruct Hin as [a [Ha Hin]].
    destruct (pair_matches args s a) eqn:Hm; [|contradiction].
    destruct Hin as [Heq|[]]. inversion Heq. now exists s, a.
  - intros [s [a [Hs [Ha [Hm [-> ->]]]]]]. exists s. split; [exact Hs|].
    apply in_flat_map. exists a. split; [exact Ha|]. rewrite Hm. now left.
Qed.

Lemma select_song_catalogue (d0 d : db) (args : list pyval) :
  same_catalogue d0 d -> select_song d args = select_song d0 args.
Proof. intros [Hs Ha]. unfold select_song. now rewrite Hs, Ha. Qed.

(** The ids resolved for a row are null, or those of a stored song and its
    artist whose title, name and duration are the row's song, artist and
    length. *)
Lemma resolve_ids_sound (d : db) (row : Log.row Timestamp) :
  resolve_ids d row = (PyNone, PyNone) \/
  exists s a, In s (songs d) /\ In a (artists d) /\
              col 2 s = col 0 a /\
              col 1 s = Log.song row /\ col 1 a = Log.artist row /\
              col 4 s = Log.length row /\
              resolve_ids d row = (col 0 s, col 0 a).
Proof.
  unfold resolve_ids.
  destruct (select_song d (lookup_args row)) as [|[sid aid] rest] eqn:Hsel;
    [now left|right].
  assert (Hin : In (sid, aid) (select_song d (lookup_args row)))
    by (rewrite Hsel; now left).
  apply select_song_In in Hin. destruct Hin as [s [a [Hs [Ha [Hm [-> ->]]]]]].
  apply pair_matches_spec in Hm. destruct Hm as [H1 [H2 [H3 H4]]].
  exists s, a. repeat split; assumption.
Qed.

(** When no stored pair matches, the ids resolved are null. *)
Lemma resolve_ids_no_match (d : db) (row : Log.row Timestamp) :
  (forall s a, In s (songs d) -> In a (artists d) ->
               pair_matches (lookup_args row) s a = false) ->
  resolve_ids d row = (PyNone, PyNone).
Proof.
  intros Hnone. unfold resolve_ids.
  destruct (select_song d (lookup_args row)) as [|[sid aid] rest] eqn:Hsel;
    [reflexivity|exfalso].
  assert (Hin : In (sid, aid) (select_song d (lookup_args row)))
    by (rewrite Hsel; now left).
  apply select_song_In in Hin. destruct Hin as [s [a [Hs [Ha [Hm _]]]]].
  rewrite (Hnone s a Hs Ha) in Hm. discriminate.
Qed.

Lemma run_same_catalogue (d0 d : db) (q : query) (params : list pyval) :
  q <> song_table_insert -> q <> artist_table_insert ->
  same_catalogue d0 d -> same_catalogue d0 (run q params d).
Proof.
  intros H1 H2 [Hs Ha]. destruct q; try congruence; split; assumption.
Qed.

(** A guarded insert into a table other than the catalogue leaves the
    catalogue as it is. *)
Lemma guarded_insert_catalogue (d0 d : db) (q : query) (params : list pyval)
    (line : string) :
  q <> song_table_insert -> q <> artist_table_insert ->
  same_catalogue d0 d ->
  same_catalogue d0
    (final_db ((try cur_execute cur q params except e => (print line ;; print e))%py d)).
Proof.
  intros H1 H2 Hd. rewrite guarded_execute. cbn [final_db fst cur execute].
  now apply run_same_catalogue.
Qed.

(** One step of the third loop on the database of the specification: the
    insert is issued, with the ids the lookup resolves. *)
Lemma sparkify_songplay_body (d0 d : db) (row : Log.row Timestamp) :
  same_catalogue d0 d ->
  outcome (songplay_body cur row d) = Ok tt /\
  writes_to songplay_table_insert (trace (songplay_body cur row d))
    = [songplay_data row (fst (resolve_ids d0 row)) (snd (resolve_ids d0 row))] /\
  same_catalogue d0 (final_db (songplay_body cur row d)).
Proof.
  intros Hd. unfold resolve_ids.
  rewrite <- (select_song_catalogue d0 d _ Hd).
  unfold songplay_body, try_except, bind, cur_execute, cur_fetchone, print,
    outcome, trace, final_db.
  cbn [cur execute fetchone run next_result results fst snd].
  fold (lookup_args row).
  destruct Hd as [Hs Ha].
  destruct (select_song d (lookup_args row)) as [|[sid aid] rest];
    cbn; repeat split; assumption.
Qed.

(** A loop of guarded inserts into a table other than the catalogue. *)
Lemma sparkify_insert_loop {A : Type} (d0 d : db) (q : query) (line : string)
    (f : A -> list pyval) (xs : list A) :
  q <> song_table_insert -> q <> artist_table_insert ->
  same_catalogue d0 d ->
  outcome (for_each (map f xs)
             (fun row => try cur_execute cur q row except e => (print line ;; print e))%py d)
    = Ok tt /\
  same_catalogue d0
    (final_db (for_each (map f xs)
                 (fun row => try cur_execute cur q row
                             except e => (print line ;; print e))%py d)) /\
  exists ts,
    trace (for_each (map f xs)
             (fun row => try cur_execute cur q row except e => (print line ;; print e))%py d)
      = List.concat ts /\
    Forall2 (fun x => insert_step q line (f x)) xs ts.
Proof.
  intros H1 H2 Hd. rewrite for_each_map.
  apply (for_each_steps_inv (same_catalogue d0)); [|exact Hd].
  intros x d' Hd'.
  destruct (guarded_insert_step cur q (f x) line d') as [Hok Hstep].
  split; [exact Hok|]. split; [exact Hstep|].
  now apply guarded_insert_catalogue.
Qed.

(** A log file on the database of the specification: every row that the
    filters keep gets its songplay insert, with the ids the lookup
    resolves in the catalogue the file started with. *)
Lemma sparkify_songplay_writes (fs : node) (cwd : list string) (filepath : path)
    (rows : list (Log.row Z)) (d : db) :
  lookup_node fs (resolve cwd filepath) = Some (File (Lines (LogFrame rows))) ->
  outcome (process_log_file fs cwd cur filepath d) = Ok tt /\
  writes_to songplay_table_insert (trace (process_log_file fs cwd cur filepath d))
    = map (fun r => songplay_data r (fst (resolve_ids d r)) (snd (resolve_ids d r)))
          (filtered rows).
Proof.
  intros Hfile. unfold process_log_file, pd_read_json. rewrite Hfile.
  rewrite bind_ret. cbv beta iota zeta.
  rewrite iterrows_time_df.
  assert (Hinit : same_catalogue d d) by (split; reflexivity).
  destruct (sparkify_insert_loop d d time_table_insert time_failed time_row
              (filtered rows) ltac:(discriminate) ltac:(discriminate) Hinit)
    as [Hok1 [Hd1 [ts1 [Ht1 HF1]]]].
  unfold time_failed in Hok1, Hd1, Ht1.
  rewrite (bind_outcome _ _ _ _ Hok1), (bind_trace _ _ _ _ Hok1), Ht1.
  match type of Hd1 with same_catalogue _ ?x => set (d1 := x) in * end.
  destruct (sparkify_insert_loop d d1 user_table_insert user_failed user_row
              (filtered rows) ltac:(discriminate) ltac:(discriminate) Hd1)
    as [Hok2 [Hd2 [ts2 [Ht2 HF2]]]].
  unfold user_failed in Hok2, Hd2, Ht2.
  rewrite (bind_outcome _ _ _ _ Hok2), (bind_trace _ _ _ _ Hok2), Ht2.
  match type of Hd2 with same_catalogue _ ?x => set (d2 := x) in * end.
  destruct (for_each_steps_inv (same_catalogue d) (songplay_body cur)
              (fun r t => writes_to songplay_table_insert t
                          = [songplay_data r (fst (resolve_ids d r))
                                             (snd (resolve_ids d r))])
              (fun x d' Hd' => sparkify_songplay_body d d' x Hd')
              (filtered rows) d2 Hd2)
    as [Hok3 [_ [ts3 [Ht3 HF3]]]].
  unfold songplay_body in Hok3, Ht3.
  split; [exact Hok3|].
  rewrite Ht3, !writes_to_app.
  rewrite (writes_to_steps _ _ (fun _ => []) _ _ HF1) by insert_writes.
  rewrite (writes_to_steps _ _ (fun _ => []) _ _ HF2) by insert_writes.
  rewrite !flat_map_nil. cbn [app].
  rewrite (writes_to_steps _ _ _ _ _ HF3 (fun x t H => H)).
  apply flat_map_singleton.
Qed.

End SparkifyFacts.

Example sparkify_resolves_the_song :
  writes_to songplay_table_insert
    (trace (process_log_file (Sample.tree [Sample.anonymous_play; Sample.shorter_play]) []
              Sparkify.cur Sample.log_file Sample.catalogue))
  = [[PyTimestamp 1541207073796; PyStr ""; PyStr "free";
      PyStr "SOZCTXZ12AB0182364"; PyStr "AR5KOSW1187FB35FF4"; PyInt 583;
      PyStr "San Jose-Sunnyvale-Santa Clara, CA"; PyStr "Mozilla/5.0"];
     [PyTimestamp 1541207073796; PyStr ""; PyStr "free"; PyNone; PyNone; PyInt 583;
      PyStr "San Jose-Sunnyvale-Santa Clara, CA"; PyStr "Mozilla/5.0"]].
Proof. reflexivity. Qed.

(** When a stored pair matches the row, the ids resolved are those of a
    stored song and its artist that match it. *)
Lemma resolve_ids_match (d : Sparkify.db) (row : Log.row Timestamp) :
  (exists s a, In s (Sparkify.songs d) /\ In a (Sparkify.artists d) /\
               Sparkify.col 2 s = Sparkify.col 0 a /\
               Sparkify.col 1 s = Log.song row /\
               Sparkify.col 1 a = Log.artist row /\
               Sparkify.col 4 s = Log.length row) ->
  exists s a, In s (Sparkify.songs d) /\ In a (Sparkify.artists d) /\
              Sparkify.col 2 s = Sparkify.col 0 a /\
              Sparkify.col 1 s = Log.song row /\
              Sparkify.col 1 a = Log.artist row /\
              Sparkify.col 4 s = Log.length row /\
              Sparkify.resolve_ids d row = (Sparkify.col 0 s, Sparkify.col 0 a).
Proof.
  intros [s [a [Hs [Ha [H1 [H2 [H3 H4]]]]]]].
  assert (Hin : In (Sparkify.col 0 s, Sparkify.col 0 a)
                   (Sparkify.select_song d (lookup_args row))).
  { apply select_song_In. exists s, a. repeat split; try assumption.
    apply pair_matches_spec. repeat split; assumption. }
  unfold Sparkify.resolve_ids.
  destruct (Sparkify.select_song d (lookup_args row)) as [|[sid aid] rest] eqn:Hsel;
    [contradiction|].
  assert (Hhd : In (sid, aid) (Sparkify.select_song d (lookup_args row)))
    by (rewrite Hsel; now left).
  apply select_song_In in Hhd.
  destruct Hhd as [s' [a' [Hs' [Ha' [Hm [-> ->]]]]]].
  apply pair_matches_spec in Hm. destruct Hm as [M1 [M2 [M3 M4]]].
  exists s', a'. repeat split; assumption.
Qed.

(** When no stored pair matches the row, the ids resolved are null. *)
Lemma resolve_ids_null (d : Sparkify.db) (row : Log.row Timestamp) :
  (forall s a, In s (Sparkify.songs d) -> In a (Sparkify.artists d) ->
               ~ (Sparkify.col 2 s = Sparkify.col 0 a /\
                  Sparkify.col 1 s = Log.song row /\
                  Sparkify.col 1 a = Log.artist row /\
                  Sparkify.col 4 s = Log.length row)) ->
  Sparkify.resolve_ids d row = (PyNone, PyNone).
Proof.
  intros Hnone. apply resolve_ids_no_match. intros s a Hs Ha.
  destruct (Sparkify.pair_matches (lookup_args row) s a) eqn:Hm; [exfalso|reflexivity].
  apply pair_matches_spec in Hm. exact (Hnone s a Hs Ha Hm).
Qed.

(** What the third loop leaves in the trace for a row whose lookup
    returned: the lookup, the row [fetchone] gave, and the songplay insert
    with that row's two ids in its fourth and fifth place, or two nulls
    when there was no row; then the insert's own report when it raised. *)
Lemma songplay_step_fields (row : Log.row Timestamp) (t : list event) :
  songplay_step row t -> lookup_raised t = false ->
  exists results raised,
    t = Execute song_select [Log.song row; Log.artist row; Log.length row] None
        :: Fetchone (inr results)
        :: Execute songplay_table_insert
             [PyTimestamp (Log.ts row); Log.userId row; Log.level row;
              match results with Some (songid, _) => songid | None => PyNone end;
              match results with Some (_, artistid) => artistid | None => PyNone end;
              Log.sessionId row; Log.location row; Log.userAgent row] raised
        :: match raised with
           | None => []
           | Some msg =>
               [Print "ERROR: Unable to insert record into 'songplays' table.";
                Print msg]
           end.
Proof.
  intros [msg|msg|results raised] Hraised; try discriminate.
  exists results, raised. now destruct results as [[songid artistid]|].
Qed.

(** C7: whatever the cursor does, a log file is processed to its end
    without an error, and for every row that the filters keep the lookup
    is executed with the row's song, artist and length, in this order.
    When the lookup returns, the songplay insert is issued with the song id
    and the artist id of the row [fetchone] gave in its fourth and fifth
    place, or with two nulls there when [fetchone] gave no row: the
    absence of a row is no error, and the only report that can follow is
    that of the insert itself.  On the database of the specification the
    ids written are those the lookup resolves: the ids of a stored song and
    its artist whose title, name and duration equal the row's song, artist
    and length whenever such a pair is stored, and two nulls when none
    is. *)
Theorem songplay_ids_come_from_the_lookup (fs : node) (cwd : list string)
    (filepath : path) (rows : list (Log.row Z)) :
  lookup_node fs (resolve cwd filepath) = Some (File (Lines (LogFrame rows))) ->
  (forall (DB : Type) (cur : cursor DB) (db : DB),
     outcome (process_log_file fs cwd cur filepath db) = Ok tt /\
     exists before steps,
       trace (process_log_file fs cwd cur filepath db) = before ++ List.concat steps /\
       writes_to song_select before = [] /\
       writes_to songplay_table_insert before = [] /\
       Forall2 (fun row t =>
                  songplay_step row t /\
                  writes_to song_select t
                  = [[Log.song row; Log.artist row; Log.length row]] /\
                  (lookup_raised t = false ->
                   exists results raised,
                     t = Execute song_select
                           [Log.song row; Log.artist row; Log.length row] None
                         :: Fetchone (inr results)
                         :: Execute songplay_table_insert
                              [PyTimestamp (Log.ts row); Log.userId row; Log.level row;
                               match results with
                               | Some (songid, _) => songid
                               | None => PyNone
                               end;
                               match results with
                               | Some (_, artistid) => artistid
                               | None => PyNone
                               end;
                               Log.sessionId row; Log.location row;
                               Log.userAgent row] raised
                         :: match raised with
                            | None => []
                            | Some msg =>
                                [Print "ERROR: Unable to insert record into 'songplays' table.";
                                 Print msg]
                            end))
               (filtered rows) steps) /\
  (forall d : Sparkify.db,
     writes_to songplay_table_insert
       (trace (process_log_file fs cwd Sparkify.cur filepath d))
     = map (fun r => [PyTimestamp (Log.ts r); Log.userId r; Log.level r;
                      fst (Sparkify.resolve_ids d r); snd (Sparkify.resolve_ids d r);
                      Log.sessionId r; Log.location r; Log.userAgent r])
           (filtered rows) /\
     forall row : Log.row Timestamp,
       ((exists s a,
           In s (Sparkify.songs d) /\ In a (Sparkify.artists d) /\
           Sparkify.col 2 s = Sparkify.col 0 a /\
           Sparkify.col 1 s = Log.song row /\
           Sparkify.col 1 a = Log.artist row /\
           Sparkify.col 4 s = Log.length row) ->
        exists s a,
          In s (Sparkify.songs d) /\ In a (Sparkify.artists d) /\
          Sparkify.col 2 s = Sparkify.col 0 a /\
          Sparkify.col 1 s = Log.song row /\
          Sparkify.col 1 a = Log.artist row /\
          Sparkify.col 4 s = Log.length row /\
          Sparkify.resolve_ids d row = (Sparkify.col 0 s, Sparkify.col 0 a)) /\
       ((forall s a,
           In s (Sparkify.songs d) -> In a (Sparkify.artists d) ->
           ~ (Sparkify.col 2 s = Sparkify.col 0 a /\
              Sparkify.col 1 s = Log.song row /\
              Sparkify.col 1 a = Log.artist row /\
              Sparkify.col 4 s = Log.length row)) ->
        Sparkify.resolve_ids d row = (PyNone, PyNone))).
Proof.
  intros Hfile. split.
  - intros DB cur db.
    split; [apply (process_log_file_steps fs cwd cur filepath rows db Hfile)|].
    destruct (songplay_steps_of_log fs cwd cur filepath rows db Hfile)
      as [before [steps [Ht [Hb1 [Hb2 HF]]]]].
    exists before, steps. repeat split; try assumption.
    clear Ht. induction HF as [|row t rs ts Hstep _ IH]; constructor; [|exact IH].
    split; [exact Hstep|]. split; [apply (songplay_step_lookups _ _ Hstep)|].
    apply (songplay_step_fields _ _ Hstep).
  - intros d.
    destruct (sparkify_songplay_writes fs cwd filepath rows d Hfile) as [_ Hw].
    split; [exact Hw|].
    intros row. split; [apply resolve_ids_match|apply resolve_ids_null].
Qed.

(** A log of two plays of a song of the catalogue, the second with another
    length: the first is written with the ids of the stored song and its
    artist, the second with two nulls. *)
Lemma songplay_ids_come_from_the_lookup_witness :
  lookup_node (Sample.tree [Sample.anonymous_play; Sample.shorter_play])
    (resolve [] Sample.log_file)
    = Some (File (Lines (LogFrame [Sample.anonymous_play; Sample.shorter_play]))) /\
  writes_to songplay_table_insert
    (trace (process_log_file (Sample.tree [Sample.anonymous_play; Sample.shorter_play]) []
              Sparkify.cur Sample.log_file Sample.catalogue))
  = [[PyTimestamp 1541207073796; PyStr ""; PyStr "free";
      PyStr "SOZCTXZ12AB0182364"; PyStr "AR5KOSW1187FB35FF4"; PyInt 583;
      PyStr "San Jose-Sunnyvale-Santa Clara, CA"; PyStr "Mozilla/5.0"];
     [PyTimestamp 1541207073796; PyStr ""; PyStr "free"; PyNone; PyNone; PyInt 583;
      PyStr "San Jose-Sunnyvale-Santa Clara, CA"; PyStr "Mozilla/5.0"]].
Proof.
  split; [reflexivity|].
  rewrite (proj1 (proj2 (songplay_ids_come_from_the_lookup
                           (Sample.tree [Sample.anonymous_play; Sample.shorter_play]) []
                           Sample.log_file [Sample.anonymous_play; Sample.shorter_play]
                           eq_refl)
                        Sample.catalogue)).
  reflexivity.
Defined.

(* ===================================================================== *)
(** ** process_data: one commit per file *)
(* ===================================================================== *)

Lemma In_firstn {A : Type} (x : A) (n : nat) (l : list A) :
  In x (firstn n l) -> In x l.
Proof.
  revert l. induction n as [|n IH]; intros [|y l] H; try contradiction.
  destruct H as [->|H]; [now left|right; now apply IH].
Qed.

Lemma In_enumerate {A : Type} (i : nat) (x : A) (start : nat) (l : list A) :
  In (i, x) (enumerate start l) -> In x l.
Proof.
  revert start. induction l as [|y l IH]; intros start H; [contradiction|].
  destruct H as [H|H]; [inversion H; now left|right; now apply (IH (S start))].
Qed.

Lemma length_enumerate {A : Type} (start : nat) (l : list A) :
  List.length (enumerate start l) = List.length l.
Proof.
  revert start. induction l as [|y l IH]; intros start; [reflexivity|].
  cbn. now rewrite IH.
Qed.

Lemma Forall2_on {A B : Type} (good : A -> Prop) (R : A -> B -> Prop)
    (xs : list A) (ys : list B) :
  (forall x, In x xs -> good x) ->
  Forall2 (fun x y => good x -> R x y) xs ys ->
  Forall2 R xs ys.
Proof.
  intros Hgood HF. induction HF as [|x y xs ys Hxy _ IH]; constructor.
  - apply Hxy, Hgood. now left.
  - apply IH. intros x' Hin. apply Hgood. now right.
Qed.

Section ProcessData.
Context {DB : Type}.
Variable fs : node.
Variable cwd : list string.
Implicit Types (db : DB) (cur : cursor DB) (conn : connection DB).

Lemma for_each_ok_on {A : Type} (body : A -> M unit) (xs : list A) :
  (forall x db, In x xs -> outcome (body x db) = Ok tt) ->
  forall db, outcome (for_each xs body db) = Ok tt.
Proof.
  induction xs as [|x xs IH]; intros Hbody db; [reflexivity|].
  cbn [for_each].
  rewrite (bind_outcome _ _ _ _ (Hbody x db (or_introl eq_refl))).
  apply IH. intros x' db' Hin. apply Hbody. now right.
Qed.

(** The body of the loop of [process_data] on a file that [func] processes
    without raising: the file's events, then the commit. *)
Lemma process_data_body cur conn (func : cursor DB -> path -> M unit)
    (Q : path -> list event -> Prop) (n i : nat) (datafile : path) db :
  outcome (func cur datafile db) = Ok tt ->
  Q datafile (trace (func cur datafile db)) ->
  file_chunk Q n (i, datafile)
    (trace ((func cur datafile ;; conn_commit conn ;;
             print (str_of_nat i ++ "/" ++ str_of_nat n ++ " files processed."))%py db)) /\
  (snd (commit conn (final_db (func cur datafile db))) = None ->
   outcome ((func cur datafile ;; conn_commit conn ;;
             print (str_of_nat i ++ "/" ++ str_of_nat n ++ " files processed."))%py db)
   = Ok tt).
Proof.
  intros Hok HQ.
  rewrite (bind_trace _ _ _ _ Hok), (bind_outcome _ _ _ _ Hok).
  unfold bind, conn_commit, print, file_chunk, progress, outcome, trace.
  destruct (commit conn (final_db (func cur datafile db))) as [d2 [msg|]];
    cbn [fst snd app].
  - split; [|discriminate].
    exists (snd (fst (func cur datafile db))), (Some msg). now split.
  - split; [|reflexivity].
    exists (snd (fst (func cur datafile db))), None. now split.
Qed.

(** [process_data] over files that [func] processes without raising: the
    line with the number of files, then for each file in turn its events,
    one commit and the progress line.  Only a commit that raises ends the
    run early, after that commit. *)
Lemma process_data_chunks cur conn filepath (func : cursor DB -> path -> M unit)
    (good : path -> Prop) (Q : path -> list event -> Prop) db :
  (forall f d, good f ->
     outcome (func cur f d) = Ok tt /\ Q f (trace (func cur f d))) ->
  Forall good (all_files fs cwd filepath) ->
  exists chunks,
    trace (process_data fs cwd cur conn filepath func db)
      = Print (found (List.length (all_files fs cwd filepath)) filepath)
          :: List.concat chunks /\
    Forall2 (file_chunk Q (List.length (all_files fs cwd filepath)))
      (firstn (List.length chunks) (enumerate 1 (all_files fs cwd filepath))) chunks /\
    (outcome (process_data fs cwd cur conn filepath func db) = Ok tt ->
     List.length chunks = List.length (all_files fs cwd filepath)) /\
    ((forall d, snd (commit conn d) = None) ->
     outcome (process_data fs cwd cur conn filepath func db) = Ok tt).
Proof.
  intros Hfunc Hgood. unfold process_data. cbv zeta.
  set (files := all_files fs cwd filepath) in *.
  set (n := List.length files).
  set (body := fun i_datafile : nat * path => _).
  assert (Hprint : forall s, outcome (print s db) = Ok tt) by reflexivity.
  rewrite (bind_trace _ _ _ _ (Hprint _)), (bind_outcome _ _ _ _ (Hprint _)).
  change (final_db (print _ db)) with db.
  change (trace (print ?s db)) with [Print s].
  assert (Hin : forall x, In x (enumerate 1 files) -> good (snd x)).
  { intros [i f] Hx. apply In_enumerate in Hx.
    rewrite Forall_forall in Hgood. now apply Hgood. }
  destruct (for_each_prefix body
              (fun x t => good (snd x) -> file_chunk Q n x t))
    with (xs := enumerate 1 files) (db := db) as [chunks [Ht [HF Hlen]]].
  { intros [i f] d Hf. cbn [snd] in Hf. destruct (Hfunc f d Hf) as [Hok HQ].
    apply (process_data_body cur conn func Q n i f d Hok HQ). }
  exists chunks. rewrite Ht. split; [reflexivity|]. split; [|split].
  - apply (Forall2_on (fun x => good (snd x))); [|exact HF].
    intros x Hx. apply Hin. now apply In_firstn in Hx.
  - intros Hok. rewrite (Hlen Hok). apply length_enumerate.
  - intros Hcommit. apply for_each_ok_on.
    intros [i f] d Hx. specialize (Hin _ Hx). cbn [snd] in Hin.
    destruct (Hfunc f d Hin) as [Hok HQ].
    apply (process_data_body cur conn func Q n i f d Hok HQ). apply Hcommit.
Qed.

Lemma song_file_events_hold cur datafile db :
  is_song_file fs cwd datafile ->
  outcome (process_song_file fs cwd cur datafile db) = Ok tt /\
  song_file_events fs cwd datafile (trace (process_song_file fs cwd cur datafile db)).
Proof.
  intros [rows Hfile].
  destruct (process_song_file_steps fs cwd cur datafile rows db Hfile)
    as [Hok [steps [Ht HF]]].
  split; [exact Hok|]. split.
  - rewrite Ht. apply (forallb_steps _ _ _ _ HF). apply song_step_keeps_transaction.
  - exists rows. split; [exact Hfile|]. split; [now exists steps|].
    rewrite Ht. apply (executed_steps _ _ _ _ HF). apply song_step_executed.
Qed.

Lemma log_file_events_hold cur datafile db :
  is_log_file fs cwd datafile ->
  outcome (process_log_file fs cwd cur datafile db) = Ok tt /\
  log_file_events fs cwd datafile (trace (process_log_file fs cwd cur datafile db)).
Proof.
  intros [rows Hfile].
  split; [apply (process_log_file_steps fs cwd cur datafile rows db Hfile)|].
  split; [apply log_file_keeps_transaction|].
  exists rows. split; [exact Hfile|].
  assert (Hrows : log_rows fs cwd datafile = rows) by (unfold log_rows; now rewrite Hfile).
  rewrite time_writes, user_writes, lookups, Hrows.
  split; [|repeat split].
  apply (process_log_file_steps fs cwd cur datafile rows db Hfile).
Qed.

End ProcessData.

(** C6: with every file found under the song root a song file and every
    file found under the log root a log file, and a cursor and a
    connection that may raise at any call: each file is processed to its
    end (every insert and every lookup of every record is executed, none
    is undone, no rollback is issued), then committed once, and the next
    file follows.  Only a commit that raises ends the run. *)
Theorem write_failures_do_not_abort_the_file {DB : Type} (fs : node)
    (cwd : list string) (cur : cursor DB) (conn : connection DB)
    (song_root log_root : path) (db : DB) :
  Forall (is_song_file fs cwd) (all_files fs cwd song_root) ->
  Forall (is_log_file fs cwd) (all_files fs cwd log_root) ->
  (exists chunks,
     trace (process_data fs cwd cur conn song_root (process_song_file fs cwd) db)
       = Print (found (List.length (all_files fs cwd song_root)) song_root)
           :: List.concat chunks /\
     Forall2 (file_chunk (song_file_events fs cwd)
                (List.length (all_files fs cwd song_root)))
       (firstn (List.length chunks) (enumerate 1 (all_files fs cwd song_root)))
       chunks /\
     (outcome (process_data fs cwd cur conn song_root (process_song_file fs cwd) db)
        = Ok tt ->
      List.length chunks = List.length (all_files fs cwd song_root)) /\
     ((forall d, snd (commit conn d) = None) ->
      outcome (process_data fs cwd cur conn song_root (process_song_file fs cwd) db)
        = Ok tt)) /\
  (exists chunks,
     trace (process_data fs cwd cur conn log_root (process_log_file fs cwd) db)
       = Print (found (List.length (all_files fs cwd log_root)) log_root)
           :: List.concat chunks /\
     Forall2 (file_chunk (log_file_events fs cwd)
                (List.length (all_files fs cwd log_root)))
       (firstn (List.length chunks) (enumerate 1 (all_files fs cwd log_root)))
       chunks /\
     (outcome (process_data fs cwd cur conn log_root (process_log_file fs cwd) db)
        = Ok tt ->
      List.length chunks = List.length (all_files fs cwd log_root)) /\
     ((forall d, snd (commit conn d) = None) ->
      outcome (process_data fs cwd cur conn log_root (process_log_file fs cwd) db)
        = Ok tt)).
Proof.
  intros Hsongs Hlogs. split.
  - apply (process_data_chunks fs cwd cur conn song_root (process_song_file fs cwd)
             (is_song_file fs cwd) (song_file_events fs cwd) db); [|exact Hsongs].
    intros f d Hf. now apply song_file_events_hold.
  - apply (process_data_chunks fs cwd cur conn log_root (process_log_file fs cwd)
             (is_log_file fs cwd) (log_file_events fs cwd) db); [|exact Hlogs].
    intros f d Hf. now apply log_file_events_hold.
Qed.

(** A tree with one song file of two lines and one log file of ten events,
    on a cursor whose inserts into the users table raise. *)
Lemma write_failures_do_not_abort_the_file_witness :
  Forall (is_song_file (Sample.tree Sample.ten_events) [])
    (all_files (Sample.tree Sample.ten_events) [] Sample.song_root) /\
  Forall (is_log_file (Sample.tree Sample.ten_events) [])
    (all_files (Sample.tree Sample.ten_events) [] Sample.log_root) /\
  exists chunks,
    trace (process_data (Sample.tree Sample.ten_events) []
             (Sample.flaky_cursor Sample.users_fail None) Sample.steady_connection
             Sample.log_root (process_log_file (Sample.tree Sample.ten_events) []) tt)
      = Print (found (List.length (all_files (Sample.tree Sample.ten_events) []
                                     Sample.log_root)) Sample.log_root)
          :: List.concat chunks /\
    Forall2 (file_chunk (log_file_events (Sample.tree Sample.ten_events) [])
               (List.length (all_files (Sample.tree Sample.ten_events) []
                               Sample.log_root)))
      (firstn (List.length chunks)
         (enumerate 1 (all_files (Sample.tree Sample.ten_events) [] Sample.log_root)))
      chunks /\
    (outcome (process_data (Sample.tree Sample.ten_events) []
                (Sample.flaky_cursor Sample.users_fail None) Sample.steady_connection
                Sample.log_root (process_log_file (Sample.tree Sample.ten_events) []) tt)
       = Ok tt ->
     List.length chunks
     = List.length (all_files (Sample.tree Sample.ten_events) [] Sample.log_root)) /\
    ((forall d, snd (commit Sample.steady_connection d) = None) ->
     outcome (process_data (Sample.tree Sample.ten_events) []
                (Sample.flaky_cursor Sample.users_fail None) Sample.steady_connection
                Sample.log_root (process_log_file (Sample.tree Sample.ten_events) []) tt)
       = Ok tt).
Proof.
  assert (Hsongs : Forall (is_song_file (Sample.tree Sample.ten_events) [])
                     (all_files (Sample.tree Sample.ten_events) [] Sample.song_root))
    by (repeat constructor; eexists; reflexivity).
  assert (Hlogs : Forall (is_log_file (Sample.tree Sample.ten_events) [])
                    (all_files (Sample.tree Sample.ten_events) [] Sample.log_root))
    by (repeat constructor; eexists; reflexivity).
  split; [exact Hsongs|]. split; [exact Hlogs|].
  exact (proj2 (write_failures_do_not_abort_the_file (Sample.tree Sample.ten_events) []
                  (Sample.flaky_cursor Sample.users_fail None) Sample.steady_connection
                  Sample.song_root Sample.log_root tt Hsongs Hlogs)).
Defined.

(** The run of the song root of the sample tree when every insert into
    the songs table raises: both lines are attempted in both tables, and
    the file is committed. *)
Example song_root_run :
  process_data (Sample.tree []) []
    (Sample.flaky_cursor
       (fun q _ => match q with song_table_insert => Some "duplicate key" | _ => None end)
       None)
    Sample.steady_connection Sample.song_root (process_song_file (Sample.tree []) []) tt
  = (tt,
     [Print "1 files found in data/song_data";
      Execute song_table_insert (song_data Sample.song_line) (Some "duplicate key");
      Print "ERROR: Unable to insert record into 'songs' table.";
      Print "duplicate key";
      Execute artist_table_insert (artist_data Sample.song_line) None;
      Execute song_table_insert (song_data Sample.other_song_line) (Some "duplicate key");
      Print "ERROR: Unable to insert record into 'songs' table.";
      Print "duplicate key";
      Execute artist_table_insert (artist_data Sample.other_song_line) None;
      Commit None;
      Print "1/1 files processed."],
     Ok tt).
Proof. reflexivity. Qed.

(* ===================================================================== *)
(** ** process_data: the files it finds *)
(* ===================================================================== *)



Lemma no_match_entries (pat : string) (entries : list (string * node)) :
  no_match pat (Dir entries) = true <->
  Forall (fun e => glob_match pat (fst e) = false /\ no_match pat (snd e) = true) entries.
Proof.
  cbn [no_match]. induction entries as [|[name child] es IH].
  - split; [constructor|reflexivity].
  - rewrite !andb_true_iff, negb_true_iff, IH. split.
    + intros [[H1 H2] H3]. now constructor.
    + intros H. inversion H as [|? ? [H1 H2] H3]; subst. auto.
Qed.






Section Discovery.
Variable fs : node.
Variable cwd : list string.



End Discovery.




Example empty_root_finds_nothing :
  all_files (Sample.tree []) [] (relpath ["data"; "empty"]) = [] /\
  no_match "*.json" (Dir [("notes", Dir [("todo.txt", File Malformed)])]) = true.
Proof. split; reflexivity. Qed.

Example roots_of_the_sample :
  all_files (Sample.tree []) [] Sample.song_root
    = [mkpath true ["data"; "song_data"; "A"; "TRAAAAW128F429D538.json"]] /\
  all_files (Dir [("home", Dir [("student", Sample.tree [])])]) ["home"; "student"]
    Sample.log_root
    = [mkpath true ["home"; "student"; "data"; "log_data"; "2018"; "11";
                    "2018-11-03-events.json"]].
Proof. split; reflexivity. Qed.

(* ===================================================================== *)
(** ** The downloader *)
(* ===================================================================== *)

Section DownloaderFacts.
Import Downloader.

Example path_of_url :
  path = "/topher/2017/August/599fd2ad_image-predictions/image-predictions.tsv".
Proof. reflexivity. Qed.

Example file_name_of_url : file_name = "image-predictions.tsv".
Proof. reflexivity. Qed.

Example unquote_space : unquote "a%20b%2Fc" = "a b/c".
Proof. reflexivity. Qed.

Lemma write_file_other (fs : files) (name content other : string) :
  other <> name -> write_file fs name content other = fs other.
Proof.
  intros Hne. unfold write_file.
  destruct (String.eqb_spec other name); [contradiction|reflexivity].
Qed.

(** C5, as the code has it: the script issues the HTTP fetch first and
    always, one fetch whether the file is there or not; it writes only
    when the name is not a file yet, and then what it fetched; a file that
    is there is left as it is, and so is every other name. *)
Theorem fetch_always_write_when_absent (requests_get : string -> string + string)
    (fs : files) :
  fetches (effects (script requests_get fs)) = [url] /\
  hd_error (effects (script requests_get fs)) = Some (HttpGet url) /\
  (os_path_isfile fs file_name = true ->
   files_after (script requests_get fs) = fs /\
   file_writes (effects (script requests_get fs)) = []) /\
  (forall content,
     fs file_name = None -> requests_get url = inr content ->
     script requests_get fs
     = (write_file fs file_name content,
        [HttpGet url; WriteFile file_name content;
         Stdout (file_name ++ " file downloaded.")],
        Ok tt)) /\
  (forall other, other <> file_name -> files_after (script requests_get fs) other = fs other).
Proof.
  unfold script.
  destruct (requests_get url) as [err|content] eqn:Hget.
  - repeat split; try reflexivity. intros content _ H. discriminate.
  - destruct (os_path_isfile fs file_name) eqn:Hfile; cbn [negb].
    + repeat split; try reflexivity.
      intros c Hnone _. unfold os_path_isfile in Hfile. rewrite Hnone in Hfile.
      discriminate.
    + unfold os_path_isfile in Hfile.
      destruct (fs file_name) as [[old|]|] eqn:Hname; try discriminate.
      * repeat split; try reflexivity; discriminate.
      * repeat split; try reflexivity; try discriminate.
        -- intros c _ [= <-]. reflexivity.
        -- intros other Hne. cbn [files_after fst]. now apply write_file_other.
Qed.

(** A directory in which the file is there: it is fetched, and left as it
    is. *)
Lemma fetch_always_write_when_absent_witness :
  os_path_isfile Sample.present file_name = true /\
  files_after (script Sample.server Sample.present) = Sample.present /\
  file_writes (effects (script Sample.server Sample.present)) = [].
Proof.
  split; [reflexivity|].
  apply (proj1 (proj2 (proj2 (fetch_always_write_when_absent Sample.server
                                Sample.present)))).
  reflexivity.
Defined.

(** C5, as stated, fails: the file is present, and the script issues the
    fetch all the same. *)
Lemma present_file_is_fetched_again :
  os_path_isfile Sample.present file_name = true /\
  effects (script Sample.server Sample.present)
  = [HttpGet url; Stdout "image-predictions.tsv file exists."] /\
  fetches (effects (script Sample.server Sample.present)) = [url].
Proof. repeat split. Qed.

Example absent_file_is_downloaded :
  effects (script Sample.server Sample.absent)
  = [HttpGet url; WriteFile "image-predictions.tsv" "tweet_id jpg_url img_num";
     Stdout "image-predictions.tsv file downloaded."] /\
  files_after (script Sample.server Sample.absent) "image-predictions.tsv"
  = Some (RegularFile "tweet_id jpg_url img_num").
Proof. split; reflexivity. Qed.

End DownloaderFacts.

(* ===================================================================== *)
(** * Further properties *)
(* ===================================================================== *)

(* ===================================================================== *)
(** ** The files that process_data finds *)
(* ===================================================================== *)








Section DiscoveryFacts.
Variable fs : node.
Variable cwd : list string.



End DiscoveryFacts.



(* ===================================================================== *)
(** ** process_data: where a run ends *)
(* ===================================================================== *)

Lemma enumerate_app {A : Type} (start : nat) (xs ys : list A) :
  enumerate start (xs ++ ys)
  = enumerate start xs ++ enumerate (start + List.length xs) ys.
Proof.
  revert start. induction xs as [|x xs IH]; intros start; cbn [app enumerate List.length].
  - now rewrite Nat.add_0_r.
  - rewrite IH. now rewrite Nat.add_succ_r.
Qed.

Lemma commits_app (a b : list event) : commits (a ++ b) = commits a ++ commits b.
Proof. apply filter_app. Qed.

Lemma commits_none (t : list event) :
  forallb keeps_transaction t = true -> commits t = [].
Proof.
  induction t as [|ev t IH]; [reflexivity|].
  cbn [forallb commits filter]. rewrite andb_true_iff. intros [Hev Ht].
  unfold keeps_transaction in Hev. rewrite andb_true_iff, negb_true_iff in Hev.
  destruct Hev as [-> _]. now apply IH.
Qed.

(** A chunk has the statements of its file and one commit. *)
Lemma file_chunk_parts (Q : path -> list event -> Prop) (n : nat)
    (x : nat * path) (chunk : list event) :
  (forall f t, Q f t -> forallb keeps_transaction t = true) ->
  file_chunk Q n x chunk ->
  List.length (commits chunk) = 1%nat /\
  exists t, Q (snd x) t /\ executed chunk = executed t /\
            forall q, writes_to q chunk = writes_to q t.
Proof.
  intros HQ [t [committed [-> Ht]]]. split.
  - rewrite commits_app, (commits_none _ (HQ _ _ Ht)). now destruct committed.
  - exists t. split; [exact Ht|].
    assert (Hex : executed (t ++ Commit committed
                              :: match committed with
                                 | None => [Print (progress (fst x) n)]
                                 | Some _ => []
                                 end) = executed t).
    { rewrite executed_app. destruct committed; cbn; apply app_nil_r. }
    split; [exact Hex|]. intros q. unfold writes_to. now rewrite Hex.
Qed.

Lemma commits_chunks (Q : path -> list event -> Prop) (n : nat)
    (xs : list (nat * path)) (chunks : list (list event)) :
  (forall f t, Q f t -> forallb keeps_transaction t = true) ->
  Forall2 (file_chunk Q n) xs chunks ->
  List.length (commits (List.concat chunks)) = List.length chunks.
Proof.
  intros HQ HF. induction HF as [|x chunk xs chunks Hx _ IH]; [reflexivity|].
  cbn [List.concat List.length]. rewrite commits_app, length_app, IH.
  now rewrite (proj1 (file_chunk_parts Q n x chunk HQ Hx)).
Qed.

Lemma writes_to_chunks (Q : path -> list event -> Prop) (n : nat) (q : query)
    (g : path -> list (list pyval)) (xs : list (nat * path))
    (chunks : list (list event)) :
  (forall f t, Q f t -> forallb keeps_transaction t = true) ->
  (forall f t, Q f t -> writes_to q t = g f) ->
  Forall2 (file_chunk Q n) xs chunks ->
  writes_to q (List.concat chunks) = flat_map (fun x => g (snd x)) xs.
Proof.
  intros HQ Hg HF. induction HF as [|x chunk xs chunks Hx _ IH]; [reflexivity|].
  cbn [List.concat flat_map]. rewrite writes_to_app, IH.
  destruct (file_chunk_parts Q n x chunk HQ Hx) as [_ [t [Ht [_ Hw]]]].
  now rewrite Hw, (Hg _ _ Ht).
Qed.

Lemma flat_map_enumerate {A B : Type} (g : A -> list B) (start : nat) (xs : list A) :
  flat_map (fun x => g (snd x)) (enumerate start xs) = flat_map g xs.
Proof.
  revert start. induction xs as [|x xs IH]; intros start; [reflexivity|].
  cbn [enumerate flat_map snd]. now rewrite IH.
Qed.

Section RunEnds.
Context {DB : Type}.
Variable fs : node.
Variable cwd : list string.
Implicit Types (db : DB) (cur : cursor DB) (conn : connection DB).

Lemma bind_assoc {A B C : Type} (m : M A) (k1 : A -> M B) (k2 : B -> M C) db :
  bind (bind m k1) k2 db = bind m (fun a => bind (k1 a) k2) db.
Proof.
  unfold bind. destruct (m db) as [[d t] [a|e]]; [|reflexivity].
  destruct (k1 a d) as [[d1 t1] [b|e1]]; [|reflexivity].
  destruct (k2 b d1) as [[d2 t2] r]. now rewrite app_assoc.
Qed.

Lemma bind_ext {A B : Type} (m : M A) (k k' : A -> M B) db :
  (forall a d, k a d = k' a d) -> bind m k db = bind m k' db.
Proof.
  intros H. unfold bind. destruct (m db) as [[d t] [a|e]]; [|reflexivity].
  now rewrite H.
Qed.

Lemma for_each_app {A : Type} (xs ys : list A) (body : A -> M unit) db :
  for_each (xs ++ ys) body db
  = bind (for_each xs body) (fun _ => for_each ys body) db.
Proof.
  revert db. induction xs as [|x xs IH]; intros db; cbn [app for_each].
  - now rewrite bind_ret.
  - rewrite bind_assoc. apply bind_ext. intros _ d. apply IH.
Qed.

(** A loop over elements on which the body never raises. *)
Lemma for_each_steps_on {A : Type} (body : A -> M unit) (P : A -> list event -> Prop)
    (xs : list A) :
  (forall x db, In x xs -> outcome (body x db) = Ok tt /\ P x (trace (body x db))) ->
  forall db,
    outcome (for_each xs body db) = Ok tt /\
    exists ts, trace (for_each xs body db) = List.concat ts /\ Forall2 P xs ts.
Proof.
  induction xs as [|x xs IH]; intros Hbody db; cbn [for_each].
  - split; [reflexivity|]. exists []. split; [reflexivity|constructor].
  - destruct (Hbody x db (or_introl eq_refl)) as [Hok HP].
    rewrite (bind_outcome _ _ _ _ Hok), (bind_trace _ _ _ _ Hok).
    destruct (IH (fun x' d Hin => Hbody x' d (or_intror Hin)) (final_db (body x db)))
      as [Hok' [ts [Ht HF]]].
    split; [exact Hok'|]. exists (trace (body x db) :: ts).
    cbn [List.concat]. rewrite Ht. split; [reflexivity|]. now constructor.
Qed.

(** [process_data] when the files found are [before], then a file on
    which [func] raises at once, then [after]: the files before are
    processed and committed, and the run ends with the exception; nothing
    of the file and of the files after it reaches the database. *)
Lemma process_data_stops_at cur conn filepath (func : cursor DB -> path -> M unit)
    (Q : path -> list event -> Prop) (before after : list path) (bad : path)
    (e : exn) db :
  all_files fs cwd filepath = before ++ bad :: after ->
  (forall f d, In f before ->
     outcome (func cur f d) = Ok tt /\ Q f (trace (func cur f d))) ->
  (forall d, snd (commit conn d) = None) ->
  (forall d, func cur bad d = (d, [], Raise e)) ->
  outcome (process_data fs cwd cur conn filepath func db) = Raise e /\
  exists chunks,
    trace (process_data fs cwd cur conn filepath func db)
      = Print (found (List.length (before ++ bad :: after)) filepath)
          :: List.concat chunks /\
    Forall2 (file_chunk Q (List.length (before ++ bad :: after)))
      (enumerate 1 before) chunks.
Proof.
  intros Hfiles Hgood Hcommit Hbad. unfold process_data. cbv zeta. rewrite Hfiles.
  set (n := List.length (before ++ bad :: after)).
  set (body := fun i_datafile : nat * path => _).
  assert (Hprint : forall s, outcome (print s db) = Ok tt) by reflexivity.
  rewrite (bind_trace _ _ _ _ (Hprint _)), (bind_outcome _ _ _ _ (Hprint _)).
  change (final_db (print _ db)) with db.
  change (trace (print ?s db)) with [Print s].
  rewrite enumerate_app, for_each_app.
  destruct (for_each_steps_on body (file_chunk Q n) (enumerate 1 before)) with (db := db)
    as [Hok [chunks [Ht HF]]].
  { intros [i f] d Hin. apply In_enumerate in Hin.
    destruct (Hgood f d Hin) as [Hokf HQ].
    destruct (process_data_body cur conn func Q n i f d Hokf HQ) as [Hchunk Hret].
    split; [apply Hret, Hcommit|exact Hchunk]. }
  rewrite (bind_outcome _ _ _ _ Hok), (bind_trace _ _ _ _ Hok), Ht.
  cbn [enumerate for_each].
  assert (Hraise : forall i d, body (i, bad) d = (d, [], Raise e)).
  { intros i d. subst body. cbv beta. cbn [snd fst].
    unfold bind at 1. now rewrite Hbad. }
  assert (Hbody : forall i d (k : unit -> M unit),
            bind (body (i, bad)) k d = (d, [], Raise e)).
  { intros i d k. unfold bind. now rewrite Hraise. }
  rewrite Hbody. cbn [outcome trace fst snd]. split; [reflexivity|].
  exists chunks. rewrite app_nil_r. now split.
Qed.

(** [process_data] when the commit of the first file raises. *)
Lemma process_data_commit_raises cur conn filepath (func : cursor DB -> path -> M unit)
    (first : path) (rest : list path) db :
  all_files fs cwd filepath = first :: rest ->
  outcome (func cur first db) = Ok tt ->
  (forall d, snd (commit conn d) <> None) ->
  exists msg,
    outcome (process_data fs cwd cur conn filepath func db)
      = Raise (Psycopg2Error msg) /\
    trace (process_data fs cwd cur conn filepath func db)
      = Print (found (List.length (first :: rest)) filepath)
          :: trace (func cur first db) ++ [Commit (Some msg)].
Proof.
  intros Hfiles Hok Hcommit. unfold process_data. cbv zeta. rewrite Hfiles.
  assert (Hprint : forall s, outcome (print s db) = Ok tt) by reflexivity.
  rewrite (bind_trace _ _ _ _ (Hprint _)), (bind_outcome _ _ _ _ (Hprint _)).
  change (final_db (print _ db)) with db.
  change (trace (print ?s db)) with [Print s].
  cbn [enumerate for_each fst snd].
  destruct (commit conn (final_db (func cur first db))) as [d1 [msg|]] eqn:Hc.
  - exists msg.
    assert (Hbody : forall (k k' : unit -> M unit),
              bind (bind (func cur first) (fun _ => bind (conn_commit conn) k)) k' db
              = (d1, trace (func cur first db) ++ [Commit (Some msg)],
                 Raise (Psycopg2Error msg))).
    { intros k k'. unfold bind, conn_commit, outcome, final_db, trace in *.
      destruct (func cur first db) as [[d t] r]. cbn [fst snd] in *. subst r.
      now rewrite Hc. }
    rewrite Hbody. now split.
  - exfalso. apply (Hcommit (final_db (func cur first db))). now rewrite Hc.
Qed.

End RunEnds.

Lemma executed_chunks (Q : path -> list event -> Prop) (n : nat)
    (g : path -> list (query * list pyval)) (xs : list (nat * path))
    (chunks : list (list event)) :
  (forall f t, Q f t -> forallb keeps_transaction t = true) ->
  (forall f t, Q f t -> executed t = g f) ->
  Forall2 (file_chunk Q n) xs chunks ->
  executed (List.concat chunks) = flat_map (fun x => g (snd x)) xs.
Proof.
  intros HQ Hg HF. induction HF as [|x chunk xs chunks Hx _ IH]; [reflexivity|].
  cbn [List.concat flat_map]. rewrite executed_app, IH.
  destruct (file_chunk_parts Q n x chunk HQ Hx) as [_ [t [Ht [He _]]]].
  now rewrite He, (Hg _ _ Ht).
Qed.

Lemma song_file_events_executed (fs : node) (cwd : list string) (f : path)
    (t : list event) :
  song_file_events fs cwd f t ->
  executed t = flat_map song_statements (song_rows fs cwd f).
Proof.
  intros [_ [rows [Hfile [_ Hex]]]]. unfold song_rows. now rewrite Hfile.
Qed.

Lemma log_file_events_time (fs : node) (cwd : list string) (f : path)
    (t : list event) :
  log_file_events fs cwd f t ->
  writes_to time_table_insert t = map time_row (filtered (log_rows fs cwd f)).
Proof.
  intros [_ [rows [Hfile [_ [Ht _]]]]]. unfold log_rows. now rewrite Hfile.
Qed.

(** X3: [process_data] commits at most once per file it found, and
    exactly once per file when it returns, for song files and for log
    files, whatever statements raise. *)
Theorem one_commit_per_file {DB : Type} (fs : node) (cwd : list string)
    (cur : cursor DB) (conn : connection DB) (song_root log_root : path) (db : DB) :
  Forall (is_song_file fs cwd) (all_files fs cwd song_root) ->
  Forall (is_log_file fs cwd) (all_files fs cwd log_root) ->
  (List.length (commits (trace (process_data fs cwd cur conn song_root
                                  (process_song_file fs cwd) db)))
     <= List.length (all_files fs cwd song_root))%nat /\
  (outcome (process_data fs cwd cur conn song_root (process_song_file fs cwd) db)
     = Ok tt ->
   List.length (commits (trace (process_data fs cwd cur conn song_root
                                  (process_song_file fs cwd) db)))
     = List.length (all_files fs cwd song_root)) /\
  (List.length (commits (trace (process_data fs cwd cur conn log_root
                                  (process_log_file fs cwd) db)))
     <= List.length (all_files fs cwd log_root))%nat /\
  (outcome (process_data fs cwd cur conn log_root (process_log_file fs cwd) db)
     = Ok tt ->
   List.length (commits (trace (process_data fs cwd cur conn log_root
                                  (process_log_file fs cwd) db)))
     = List.length (all_files fs cwd log_root)).
Proof.
  intros Hsongs Hlogs.
  destruct (process_data_chunks fs cwd cur conn song_root (process_song_file fs cwd)
              (is_song_file fs cwd) (song_file_events fs cwd) db
              (fun f d Hf => song_file_events_hold fs cwd cur f d Hf) Hsongs)
    as [chunks [Ht [HF [Hlen _]]]].
  destruct (process_data_chunks fs cwd cur conn log_root (process_log_file fs cwd)
              (is_log_file fs cwd) (log_file_events fs cwd) db
              (fun f d Hf => log_file_events_hold fs cwd cur f d Hf) Hlogs)
    as [chunks' [Ht' [HF' [Hlen' _]]]].
  rewrite Ht, Ht'. cbn [commits filter is_commit].
  change (filter is_commit ?l) with (commits l).
  rewrite (commits_chunks _ _ _ _ (fun f t H => proj1 H) HF).
  rewrite (commits_chunks _ _ _ _ (fun f t H => proj1 H) HF').
  apply Forall2_length in HF, HF'.
  rewrite length_firstn, length_enumerate in HF, HF'.
  repeat split; try assumption; lia.
Qed.

(** The two roots of the sample tree, on a cursor whose inserts into the
    users table raise. *)
Lemma one_commit_per_file_witness :
  Forall (is_song_file (Sample.tree Sample.ten_events) [])
    (all_files (Sample.tree Sample.ten_events) [] Sample.song_root) /\
  Forall (is_log_file (Sample.tree Sample.ten_events) [])
    (all_files (Sample.tree Sample.ten_events) [] Sample.log_root) /\
  (List.length
     (commits (trace (process_data (Sample.tree Sample.ten_events) []
                        (Sample.flaky_cursor Sample.users_fail None)
                        Sample.steady_connection Sample.song_root
                        (process_song_file (Sample.tree Sample.ten_events) []) tt)))
   <= List.length (all_files (Sample.tree Sample.ten_events) [] Sample.song_root))%nat.
Proof.
  assert (Hsongs : Forall (is_song_file (Sample.tree Sample.ten_events) [])
                     (all_files (Sample.tree Sample.ten_events) [] Sample.song_root))
    by (repeat constructor; eexists; reflexivity).
  assert (Hlogs : Forall (is_log_file (Sample.tree Sample.ten_events) [])
                    (all_files (Sample.tree Sample.ten_events) [] Sample.log_root))
    by (repeat constructor; eexists; reflexivity).
  split; [exact Hsongs|]. split; [exact Hlogs|].
  exact (proj1 (one_commit_per_file (Sample.tree Sample.ten_events) []
                  (Sample.flaky_cursor Sample.users_fail None) Sample.steady_connection
                  Sample.song_root Sample.log_root tt Hsongs Hlogs)).
Defined.

(** X4: a file that is found and cannot be parsed ends the run with the
    parse error, which no [except] clause catches: the song files found
    before it have been processed and committed, one commit each, and
    nothing of the files found after it reaches the database. *)
Theorem unreadable_file_ends_the_run {DB : Type} (fs : node) (cwd : list string)
    (cur : cursor DB) (conn : connection DB) (filepath : path)
    (before after : list path) (bad : path) (db : DB) :
  all_files fs cwd filepath = before ++ bad :: after ->
  Forall (is_song_file fs cwd) before ->
  lookup_node fs (resolve cwd bad) = Some (File Malformed) ->
  (forall d, snd (commit conn d) = None) ->
  outcome (process_data fs cwd cur conn filepath (process_song_file fs cwd) db)
    = Raise (PyException "ValueError") /\
  List.length (commits (trace (process_data fs cwd cur conn filepath
                                 (process_song_file fs cwd) db)))
    = List.length before /\
  executed (trace (process_data fs cwd cur conn filepath
                     (process_song_file fs cwd) db))
    = flat_map (fun f => flat_map song_statements (song_rows fs cwd f)) before.
Proof.
  intros Hfiles Hbefore Hbad Hcommit.
  rewrite Forall_forall in Hbefore.
  destruct (process_data_stops_at fs cwd cur conn filepath (process_song_file fs cwd)
              (song_file_events fs cwd) before after bad (PyException "ValueError") db
              Hfiles
              (fun f d Hin => song_file_events_hold fs cwd cur f d (Hbefore f Hin))
              Hcommit)
    as [Hout [chunks [Ht HF]]].
  { intros d. unfold process_song_file, pd_read_json. now rewrite Hbad. }
  split; [exact Hout|]. rewrite Ht. split.
  - cbn [commits filter is_commit]. change (filter is_commit ?l) with (commits l).
    rewrite (commits_chunks _ _ _ _ (fun f t H => proj1 H) HF).
    apply Forall2_length in HF. now rewrite <- HF, length_enumerate.
  - change (executed (Print ?s :: ?l)) with (executed l).
    rewrite (executed_chunks _ _ _ _ _ (fun f t H => proj1 H)
               (song_file_events_executed fs cwd) HF).
    apply (flat_map_enumerate
             (fun f => flat_map song_statements (song_rows fs cwd f))).
Qed.

(** A song root of three files of which the second is not JSON. *)
Lemma unreadable_file_ends_the_run_witness :
  all_files Faulty.tree [] Sample.song_root
    = [Faulty.a_json] ++ Faulty.b_json :: [Faulty.c_json] /\
  executed (trace (process_data Faulty.tree [] Sample.steady_cursor
                     Sample.steady_connection Sample.song_root
                     (process_song_file Faulty.tree []) tt))
    = flat_map (fun f => flat_map song_statements (song_rows Faulty.tree [] f))
        [Faulty.a_json].
Proof.
  split; [reflexivity|].
  apply (unreadable_file_ends_the_run Faulty.tree [] Sample.steady_cursor
           Sample.steady_connection Sample.song_root
           [Faulty.a_json] [Faulty.c_json] Faulty.b_json tt).
  - reflexivity.
  - repeat constructor. eexists. reflexivity.
  - reflexivity.
  - reflexivity.
Defined.

(** X5: a commit that raises is not caught: the run ends with the
    database error after the first log file, whose statements were all
    executed, and no later file is read. *)
Theorem failed_commit_ends_the_run {DB : Type} (fs : node) (cwd : list string)
    (cur : cursor DB) (conn : connection DB) (filepath first : path)
    (rest : list path) (db : DB) :
  all_files fs cwd filepath = first :: rest ->
  is_log_file fs cwd first ->
  (forall d, snd (commit conn d) <> None) ->
  exists msg,
    outcome (process_data fs cwd cur conn filepath (process_log_file fs cwd) db)
      = Raise (Psycopg2Error msg) /\
    commits (trace (process_data fs cwd cur conn filepath
                      (process_log_file fs cwd) db))
      = [Commit (Some msg)] /\
    writes_to time_table_insert
      (trace (process_data fs cwd cur conn filepath (process_log_file fs cwd) db))
      = map time_row (filtered (log_rows fs cwd first)) /\
    writes_to song_select
      (trace (process_data fs cwd cur conn filepath (process_log_file fs cwd) db))
      = map lookup_args (filtered (log_rows fs cwd first)).
Proof.
  intros Hfiles Hfirst Hcommit.
  destruct (log_file_events_hold fs cwd cur first db Hfirst) as [Hok [Hkeep _]].
  destruct (process_data_commit_raises fs cwd cur conn filepath
              (process_log_file fs cwd) first rest db Hfiles Hok Hcommit)
    as [msg [Hout Ht]].
  exists msg. split; [exact Hout|]. rewrite Ht. split; [|split].
  - cbn [commits filter is_commit]. change (filter is_commit ?l) with (commits l).
    rewrite commits_app, (commits_none _ Hkeep). reflexivity.
  - change (writes_to ?q (Print ?s :: ?l)) with (writes_to q l).
    rewrite writes_to_app, time_writes. apply app_nil_r.
  - change (writes_to ?q (Print ?s :: ?l)) with (writes_to q l).
    rewrite writes_to_app, lookups. apply app_nil_r.
Qed.

(** A log root of two files, on a connection whose commits raise. *)
Lemma failed_commit_ends_the_run_witness :
  all_files Faulty.tree [] Sample.log_root = Faulty.one_json :: [Faulty.two_json] /\
  exists msg,
    outcome (process_data Faulty.tree [] Sample.steady_cursor Faulty.broken_connection
               Sample.log_root (process_log_file Faulty.tree []) tt)
      = Raise (Psycopg2Error msg) /\
    commits (trace (process_data Faulty.tree [] Sample.steady_cursor
                      Faulty.broken_connection Sample.log_root
                      (process_log_file Faulty.tree []) tt))
      = [Commit (Some msg)].
Proof.
  split; [reflexivity|].
  assert (Hraises : forall d : unit, snd (commit Faulty.broken_connection d) <> None)
    by (intros d; discriminate).
  destruct (failed_commit_ends_the_run Faulty.tree [] Sample.steady_cursor
              Faulty.broken_connection Sample.log_root Faulty.one_json
              [Faulty.two_json] tt eq_refl
              (ex_intro _ Sample.ten_events eq_refl) Hraises)
    as [msg [Hout [Hc _]]].
  exists msg. now split.
Defined.

(* ===================================================================== *)
(** ** What a log file writes *)
(* ===================================================================== *)

Lemma filtered_user_id (rows : list (Log.row Z)) (r : Log.row Timestamp) :
  In r (filtered rows) -> Log.userId r = PyStr "".
Proof.
  rewrite filtered_keeps. intros Hin.
  apply in_map_iff in Hin. destruct Hin as [r0 [<- Hr]].
  apply filter_In in Hr. destruct Hr as [_ Hr].
  apply andb_true_iff in Hr. destruct Hr as [Hr _].
  now apply pyval_eqb_eq in Hr.
Qed.

Lemma filtered_nothing (rows : list (Log.row Z)) :
  Forall (fun r => Log.userId r <> PyStr "" \/ Log.page r <> PyStr "NextSong") rows ->
  filtered rows = [].
Proof.
  intros H. rewrite filtered_keeps.
  induction H as [|r rows Hr _ IH]; [reflexivity|].
  cbn [filter].
  destruct Hr as [Hr|Hr]; apply pyval_eqb_neq in Hr; rewrite Hr;
    [|rewrite andb_false_r]; exact IH.
Qed.

(** X6: a log in which no row is a play without user id (each row has a
    user id that is not the empty string, or a page other than NextSong)
    is read and nothing more: [process_log_file] executes no statement,
    prints nothing and leaves the database as it is. *)
Theorem log_without_anonymous_play_does_nothing {DB : Type} (fs : node)
    (cwd : list string) (cur : cursor DB) (filepath : path)
    (rows : list (Log.row Z)) (db : DB) :
  lookup_node fs (resolve cwd filepath) = Some (File (Lines (LogFrame rows))) ->
  Forall (fun r => Log.userId r <> PyStr "" \/ Log.page r <> PyStr "NextSong") rows ->
  process_log_file fs cwd cur filepath db = (db, [], Ok tt).
Proof.
  intros Hfile Hrows. unfold process_log_file, pd_read_json. rewrite Hfile.
  rewrite bind_ret. cbv beta iota zeta.
  rewrite (filtered_nothing rows Hrows). reflexivity.
Qed.

(** A log of three events of users who are logged in, on a cursor whose
    every statement would raise. *)
Lemma log_without_anonymous_play_does_nothing_witness :
  lookup_node (Sample.tree Faulty.logged_in) (resolve [] Sample.log_file)
    = Some (File (Lines (LogFrame Faulty.logged_in))) /\
  process_log_file (Sample.tree Faulty.logged_in) []
    (Sample.flaky_cursor (fun _ _ => Some "relation does not exist") None)
    Sample.log_file tt
  = (tt, [], Ok tt).
Proof.
  split; [reflexivity|].
  apply (log_without_anonymous_play_does_nothing (Sample.tree Faulty.logged_in) []
           (Sample.flaky_cursor (fun _ _ => Some "relation does not exist") None)
           Sample.log_file Faulty.logged_in tt).
  - reflexivity.
  - repeat (apply Forall_cons; [left; discriminate|]). apply Forall_nil.
Defined.

Lemma songplay_step_user_id (row : Log.row Timestamp) (t : list event) :
  songplay_step row t -> Log.userId row = PyStr "" ->
  Forall (fun params => nth 1 params PyNone = PyStr "")
         (writes_to songplay_table_insert t).
Proof.
  intros [msg|msg|results raised] Hrow; [constructor|constructor|].
  destruct raised; cbn; (constructor; [exact Hrow|constructor]).
Qed.

Lemma songplay_steps_user_id (rows : list (Log.row Timestamp))
    (steps : list (list event)) :
  Forall2 songplay_step rows steps ->
  (forall r, In r rows -> Log.userId r = PyStr "") ->
  Forall (fun params => nth 1 params PyNone = PyStr "")
         (writes_to songplay_table_insert (List.concat steps)).
Proof.
  intros HF. induction HF as [|row t rows steps Hstep _ IH]; intros Hrows.
  - constructor.
  - cbn [List.concat]. rewrite writes_to_app. apply Forall_app. split.
    + apply (songplay_step_user_id row t Hstep). apply Hrows. now left.
    + apply IH. intros r Hr. apply Hrows. now right.
Qed.

(** X7: whatever the file and the cursor, every row that
    [process_log_file] sends to the users table has the empty string as
    its user id, and so has every row it sends to the songplays table: no
    event of a user with an id is ever written to either. *)
Theorem only_rows_without_user_id_are_written {DB : Type} (fs : node)
    (cwd : list string) (cur : cursor DB) (filepath : path) (db : DB) :
  Forall (fun params => nth 0 params PyNone = PyStr "")
    (writes_to user_table_insert (trace (process_log_file fs cwd cur filepath db))) /\
  Forall (fun params => nth 1 params PyNone = PyStr "")
    (writes_to songplay_table_insert
       (trace (process_log_file fs cwd cur filepath db))).
Proof.
  split; [apply user_writes_have_no_user_id|].
  destruct (log_rows_cases fs cwd filepath) as [Hlog|[Hnot _]].
  - destruct (songplay_steps_of_log fs cwd cur filepath _ db Hlog)
      as [before [steps [-> [_ [Hb HF]]]]].
    rewrite writes_to_app, Hb. cbn [app].
    apply (songplay_steps_user_id _ _ HF). apply filtered_user_id.
  - rewrite (process_log_file_not_log fs cwd cur filepath db Hnot). constructor.
Qed.

Lemma raised_lookups_app (a b : list event) :
  raised_lookups (a ++ b) = raised_lookups a ++ raised_lookups b.
Proof. apply filter_app. Qed.

Lemma raised_lookups_report (line : string) (raised : option string) :
  raised_lookups (report line raised) = [].
Proof. now destruct raised. Qed.

Lemma insert_step_no_lookup (q : query) (line : string) (params : list pyval)
    (t : list event) :
  q <> song_select -> insert_step q line params t -> raised_lookups t = [].
Proof.
  intros Hq [raised ->]. cbn [raised_lookups filter].
  change (filter _ ?l) with (raised_lookups l). rewrite raised_lookups_report.
  destruct q, raised; try reflexivity; congruence.
Qed.

Lemma insert_steps_no_lookup {A : Type} (q : query) (line : string)
    (f : A -> list pyval) (xs : list A) (ts : list (list event)) :
  q <> song_select ->
  Forall2 (fun x => insert_step q line (f x)) xs ts ->
  raised_lookups (List.concat ts) = [].
Proof.
  intros Hq HF. induction HF as [|x t xs ts Hx _ IH]; [reflexivity|].
  cbn [List.concat]. now rewrite raised_lookups_app, (insert_step_no_lookup _ _ _ _ Hq Hx).
Qed.

(** One step of the third loop is a songplay insert or a lookup that
    raised, never both and never neither. *)
Lemma songplay_step_accounted (row : Log.row Timestamp) (t : list event) :
  songplay_step row t ->
  (List.length (writes_to songplay_table_insert t)
   + List.length (raised_lookups t) = 1)%nat.
Proof.
  intros [msg|msg|results raised]; try reflexivity.
  unfold writes_to. cbn [executed flat_map app filter fst query_eqb raised_lookups].
  change (flat_map _ ?l) with (executed l).
  change (filter _ (report ?a ?b)) with (raised_lookups (report a b)).
  rewrite executed_report, raised_lookups_report. cbn.
  now destruct raised.
Qed.

Lemma songplay_steps_accounted (rows : list (Log.row Timestamp))
    (steps : list (list event)) :
  Forall2 songplay_step rows steps ->
  (List.length (writes_to songplay_table_insert (List.concat steps))
   + List.length (raised_lookups (List.concat steps)) = List.length rows)%nat.
Proof.
  intros HF. induction HF as [|row t rows steps Hstep _ IH]; [reflexivity|].
  cbn [List.concat List.length].
  rewrite writes_to_app, raised_lookups_app, !length_app.
  pose proof (songplay_step_accounted row t Hstep). lia.
Qed.

(** X8: whatever the file and the cursor, [process_log_file] issues as
    many inserts into the time table, as many inserts into the users table
    and as many lookups as there are rows that its filters keep; and each
    of these rows is accounted for by a songplay insert or by a lookup
    that raised. *)
Theorem log_file_statement_counts {DB : Type} (fs : node) (cwd : list string)
    (cur : cursor DB) (filepath : path) (db : DB) :
  List.length (writes_to time_table_insert
                 (trace (process_log_file fs cwd cur filepath db)))
    = List.length (filtered (log_rows fs cwd filepath)) /\
  List.length (writes_to user_table_insert
                 (trace (process_log_file fs cwd cur filepath db)))
    = List.length (filtered (log_rows fs cwd filepath)) /\
  List.length (writes_to song_select
                 (trace (process_log_file fs cwd cur filepath db)))
    = List.length (filtered (log_rows fs cwd filepath)) /\
  (List.length (writes_to songplay_table_insert
                  (trace (process_log_file fs cwd cur filepath db)))
   + List.length (raised_lookups (trace (process_log_file fs cwd cur filepath db)))
   = List.length (filtered (log_rows fs cwd filepath)))%nat.
Proof.
  rewrite time_writes, user_writes, lookups, !length_map.
  repeat split.
  destruct (log_rows_cases fs cwd filepath) as [Hlog|[Hnot Hnil]].
  - destruct (process_log_file_steps fs cwd cur filepath _ db Hlog)
      as [_ [ts1 [ts2 [ts3 [-> [H1 [H2 H3]]]]]]].
    rewrite !writes_to_app, !raised_lookups_app.
    rewrite (writes_to_steps _ _ (fun _ => []) _ _ H1) by insert_writes.
    rewrite (writes_to_steps _ _ (fun _ => []) _ _ H2) by insert_writes.
    rewrite (insert_steps_no_lookup time_table_insert _ _ _ _ ltac:(discriminate) H1).
    rewrite (insert_steps_no_lookup user_table_insert _ _ _ _ ltac:(discriminate) H2).
    rewrite !flat_map_nil. cbn [app].
    apply (songplay_steps_accounted _ _ H3).
  - rewrite (process_log_file_not_log fs cwd cur filepath db Hnot), Hnil.
    reflexivity.
Qed.

(* ===================================================================== *)
(** ** main *)
(* ===================================================================== *)

Lemma ran_app (a b : list main_event) : ran (a ++ b) = ran a ++ ran b.
Proof. apply flat_map_app. Qed.

Lemma ran_map (t : list event) : ran (map Ran t) = t.
Proof.
  induction t as [|ev t IH]; [reflexivity|].
  cbn [map]. unfold ran in *. cbn [flat_map app]. f_equal. exact IH.
Qed.

Lemma map_Ran_never_closes (t : list event) :
  forallb (fun ev => negb (is_close ev)) (map Ran t) = true.
Proof. induction t as [|ev t IH]; [reflexivity|exact IH]. Qed.

Section MainFacts.
Context {DB : Type}.
Variable fs : node.
Variable cwd : list string.
Variable psycopg2_connect : string -> string + connection DB.
Variable conn_cursor : connection DB -> string + cursor DB.


(** X10: [main] closes the cursor and then the connection exactly when it
    returns: these are the last two events of a run that returns and they
    occur nowhere before, and a run that raises, wherever it does, closes
    neither. *)
Theorem main_closes_only_when_it_returns (db : DB) :
  (main_outcome (main fs cwd psycopg2_connect conn_cursor db) = Ok tt ->
   exists t,
     main_trace (main fs cwd psycopg2_connect conn_cursor db)
       = t ++ [CloseCursor; CloseConnection] /\
     forallb (fun ev => negb (is_close ev)) t = true) /\
  (forall e,
     main_outcome (main fs cwd psycopg2_connect conn_cursor db) = Raise e ->
     forallb (fun ev => negb (is_close ev))
       (main_trace (main fs cwd psycopg2_connect conn_cursor db)) = true).
Proof.
  unfold main.
  destruct (psycopg2_connect dsn) as [msg|conn]; cbn [fst snd].
  { split; [discriminate|reflexivity]. }
  destruct (conn_cursor conn) as [msg|cur]; cbn [fst snd].
  { split; [discriminate|reflexivity]. }
  set (songs := process_data fs cwd cur conn _ _ db).
  destruct (outcome songs) as [[]|e1].
  - set (logs := process_data fs cwd cur conn _ _ (final_db songs)).
    destruct (outcome logs) as [[]|e2]; cbn [main_outcome main_trace fst snd].
    + split; [|discriminate]. intros _.
      exists ([Connect dsn None] ++ [OpenCursor None] ++ map Ran (trace songs)
                ++ map Ran (trace logs)).
      split; [now rewrite <- !app_assoc|].
      now rewrite !forallb_app, !map_Ran_never_closes.
    + split; [discriminate|]. intros e _.
      now rewrite !forallb_app, !map_Ran_never_closes.
  - cbn [main_outcome main_trace fst snd]. split; [discriminate|]. intros e _.
    now rewrite !forallb_app, !map_Ran_never_closes.
Qed.

(** X11: with a connection and a cursor, song and log files that are
    well formed and commits that do not raise, [main] returns: it
    connects, opens the cursor, runs the whole song root, then the whole
    log root on the database the song run left, closes the cursor and
    closes the connection; and it commits once per file of the two
    roots. *)
Theorem main_runs_songs_then_logs (conn : connection DB) (cur : cursor DB) (db : DB) :
  psycopg2_connect dsn = inr conn ->
  conn_cursor conn = inr cur ->
  Forall (is_song_file fs cwd) (all_files fs cwd (relpath ["data"; "song_data"])) ->
  Forall (is_log_file fs cwd) (all_files fs cwd (relpath ["data"; "log_data"])) ->
  (forall d, snd (commit conn d) = None) ->
  main_outcome (main fs cwd psycopg2_connect conn_cursor db) = Ok tt /\
  main_trace (main fs cwd psycopg2_connect conn_cursor db)
    = Connect dsn None :: OpenCursor None
        :: map Ran (trace (process_data fs cwd cur conn (relpath ["data"; "song_data"])
                             (process_song_file fs cwd) db))
        ++ map Ran (trace (process_data fs cwd cur conn (relpath ["data"; "log_data"])
                             (process_log_file fs cwd)
                             (final_db (process_data fs cwd cur conn
                                          (relpath ["data"; "song_data"])
                                          (process_song_file fs cwd) db))))
        ++ [CloseCursor; CloseConnection] /\
  List.length (commits (ran (main_trace (main fs cwd psycopg2_connect conn_cursor db))))
    = (List.length (all_files fs cwd (relpath ["data"; "song_data"]))
       + List.length (all_files fs cwd (relpath ["data"; "log_data"])))%nat.
Proof.
  intros Hconn Hcur Hsongs Hlogs Hcommit. unfold main. rewrite Hconn.
  cbn [fst snd]. rewrite Hcur. cbn [fst snd].
  set (songs := process_data fs cwd cur conn _ _ db).
  destruct (process_data_chunks fs cwd cur conn (relpath ["data"; "song_data"])
              (process_song_file fs cwd) (is_song_file fs cwd)
              (song_file_events fs cwd) db
              (fun f d Hf => song_file_events_hold fs cwd cur f d Hf) Hsongs)
    as [chunks [Ht [HF [Hlen Hret]]]].
  fold songs in Ht, Hlen, Hret. specialize (Hret Hcommit). specialize (Hlen Hret).
  rewrite Hret.
  set (logs := process_data fs cwd cur conn _ _ (final_db songs)).
  destruct (process_data_chunks fs cwd cur conn (relpath ["data"; "log_data"])
              (process_log_file fs cwd) (is_log_file fs cwd)
              (log_file_events fs cwd) (final_db songs)
              (fun f d Hf => log_file_events_hold fs cwd cur f d Hf) Hlogs)
    as [chunks' [Ht' [HF' [Hlen' Hret']]]].
  fold logs in Ht', Hlen', Hret'. specialize (Hret' Hcommit). specialize (Hlen' Hret').
  rewrite Hret'. cbn [main_outcome main_trace fst snd app].
  split; [reflexivity|]. split; [reflexivity|].
  cbn [ran flat_map app]. change (flat_map _ ?l) with (ran l).
  rewrite !ran_app, !ran_map. cbn [ran flat_map app]. rewrite app_nil_r.
  rewrite commits_app, length_app, Ht, Ht'.
  cbn [commits filter is_commit]. change (filter is_commit ?l) with (commits l).
  rewrite (commits_chunks _ _ _ _ (fun f t H => proj1 H) HF).
  rewrite (commits_chunks _ _ _ _ (fun f t H => proj1 H) HF').
  now rewrite Hlen, Hlen'.
Qed.

End MainFacts.


(** The sample tree, with a driver that connects. *)
Lemma main_runs_songs_then_logs_witness :
  Forall (is_song_file (Sample.tree Sample.ten_events) [])
    (all_files (Sample.tree Sample.ten_events) [] (relpath ["data"; "song_data"])) /\
  Forall (is_log_file (Sample.tree Sample.ten_events) [])
    (all_files (Sample.tree Sample.ten_events) [] (relpath ["data"; "log_data"])) /\
  main_outcome (main (Sample.tree Sample.ten_events) [] Faulty.connects
                  Faulty.gives_cursor tt) = Ok tt.
Proof.
  assert (Hsongs : Forall (is_song_file (Sample.tree Sample.ten_events) [])
                     (all_files (Sample.tree Sample.ten_events) []
                        (relpath ["data"; "song_data"])))
    by (repeat constructor; eexists; reflexivity).
  assert (Hlogs : Forall (is_log_file (Sample.tree Sample.ten_events) [])
                    (all_files (Sample.tree Sample.ten_events) []
                       (relpath ["data"; "log_data"])))
    by (repeat constructor; eexists; reflexivity).
  split; [exact Hsongs|]. split; [exact Hlogs|].
  exact (proj1 (main_runs_songs_then_logs (Sample.tree Sample.ten_events) []
                  Faulty.connects Faulty.gives_cursor Sample.steady_connection
                  Sample.steady_cursor tt eq_refl eq_refl Hsongs Hlogs
                  (fun d => eq_refl))).
Defined.

Example main_on_the_sample :
  main (Sample.tree [Sample.anonymous_play]) [] Faulty.connects Faulty.gives_cursor tt
  = (tt,
     [Connect dsn None; OpenCursor None;
      Ran (Print "1 files found in data/song_data");
      Ran (Execute song_table_insert (song_data Sample.song_line) None);
      Ran (Execute artist_table_insert (artist_data Sample.song_line) None);
      Ran (Execute song_table_insert (song_data Sample.other_song_line) None);
      Ran (Execute artist_table_insert (artist_data Sample.other_song_line) None);
      Ran (Commit None);
      Ran (Print "1/1 files processed.");
      Ran (Print "1 files found in data/log_data");
      Ran (Execute time_table_insert
             [PyTimestamp 1541207073796; PyInt 1; PyInt 3; PyInt 5; PyInt 11;
              PyInt 2018; PyInt 5] None);
      Ran (Execute user_table_insert
             [PyStr ""; PyStr "Ryan"; PyStr "Smith"; PyStr "M"; PyStr "free"] None);
      Ran (Execute song_select
             [PyStr "Sehr kosmisch"; PyStr "Harmonia"; PyFloat 3671684301 (-24)] None);
      Ran (Fetchone (inr None));
      Ran (Execute songplay_table_insert
             [PyTimestamp 1541207073796; PyStr ""; PyStr "free"; PyNone; PyNone;
              PyInt 583; PyStr "San Jose-Sunnyvale-Santa Clara, CA";
              PyStr "Mozilla/5.0"] None);
      Ran (Commit None);
      Ran (Print "1/1 files processed.");
      CloseCursor; CloseConnection],
     Ok tt).
Proof. reflexivity. Qed.

Example main_without_cursor :
  main (Sample.tree []) [] Faulty.connects Faulty.gives_no_cursor tt
  = (tt,
     [Connect dsn None; OpenCursor (Some "connection already closed");
      Ran (Print cursor_failed); Ran (Print "connection already closed")],
     Raise (PyException "UnboundLocalError")).
Proof. reflexivity. Qed.

(* ===================================================================== *)
(** ** The downloader, run again and run in vain *)
(* ===================================================================== *)

Section DownloaderRuns.
Import Downloader.




(** X13: when the request raises, and when the name of the file is a
    directory, the script ends with the error, the request's own in the
    first case and [IsADirectoryError] after a fetch that succeeded in the
    second; the working directory is as it was, and nothing is written or
    printed. *)
Theorem failed_run_changes_nothing (requests_get : string -> string + string)
    (fs : files) :
  (exists err, requests_get url = inl err) \/ fs file_name = Some Directory ->
  exists e,
    script requests_get fs = (fs, [HttpGet url], Raise e) /\
    (forall err, requests_get url = inl err -> e = PyException err) /\
    (forall content,
       requests_get url = inr content -> e = PyException "IsADirectoryError").
Proof.
  unfold script. intros Hfails.
  destruct (requests_get url) as [err|content] eqn:Hget.
  - exists (PyException err). split; [reflexivity|].
    split; [now intros err' [= ->]|discriminate].
  - destruct Hfails as [[err H]|Hdir]; [discriminate|].
    unfold os_path_isfile. rewrite Hdir. cbn [negb].
    exists (PyException "IsADirectoryError"). split; [reflexivity|].
    split; [discriminate|reflexivity].
Qed.

(** The server answers and the name is a directory. *)
Lemma failed_run_changes_nothing_witness :
  Faulty.taken file_name = Some Directory /\
  script Sample.server Faulty.taken
  = (Faulty.taken, [HttpGet url], Raise (PyException "IsADirectoryError")).
Proof.
  split; [reflexivity|].
  destruct (failed_run_changes_nothing Sample.server Faulty.taken
              (or_intror eq_refl)) as [e [Hrun [_ Herr]]].
  rewrite Hrun. now rewrite (Herr "tweet_id jpg_url img_num" eq_refl).
Defined.

Example unreachable_server :
  script Faulty.unreachable Sample.absent
  = (Sample.absent, [HttpGet url], Raise (PyException "ConnectionError")).
Proof. reflexivity. Qed.

Example name_taken_by_a_directory :
  script Sample.server Faulty.taken
  = (Faulty.taken, [HttpGet url], Raise (PyException "IsADirectoryError")).
Proof. reflexivity. Qed.

End DownloaderRuns.
